(** * OrthoPerspectiveCamera: a shallow embedding of the camera facade

    The development follows [OrthoPerspectiveCamera] (the second document of
    [src/examples/fragment/main.js]): the navigation-mode registry and the
    mode switch, [fit], [setUserInput] and the orthographic frustum
    synchronization.

    Numbers.  [fit] only compares, adds, subtracts and multiplies JavaScript
    numbers, so it is embedded on IEEE 754 binary64 values (primitive floats),
    where [Number.MAX_VALUE] and [Number.MIN_VALUE] are literals and every
    definition evaluates.  [setOrthoCameraAspect] calls [Math.atan] and uses
    [Math.PI]; it is embedded over the real numbers, the exact reading of the
    same arithmetic.  The pointer-button bindings are integer action codes. *)

From Stdlib Require Import ZArith String List Bool Lia Reals Lra.
From Stdlib Require Import Floats.PrimFloat.
From stdpp Require Import base option gmap strings.
Import ListNotations.

Local Open Scope string_scope.

(** ** JavaScript numbers and [Math] *)

Module JS.

(** [Number.MAX_VALUE]: the largest finite double, about 1.797e308. *)
Definition MAX_VALUE : float := 0x1.fffffffffffffp+1023%float.

(** [Number.MIN_VALUE]: the smallest positive double, about 5e-324. *)
Definition MIN_VALUE : float := 0x1p-1074%float.

(** [a < b] on numbers; false as soon as one side is NaN. *)
Definition lt (a b : float) : bool := PrimFloat.ltb a b.

(** [a > b] on numbers. *)
Definition gt (a b : float) : bool := PrimFloat.ltb b a.

Definition is_neg_zero (a : float) : bool :=
  match PrimFloat.classify a with
  | FloatClass.NZero => true
  | _ => false
  end.

(** One step of [Math.max]: NaN is contagious and [+0] is larger than
    [-0]. *)
Definition max2 (a b : float) : float :=
  if PrimFloat.is_nan a || PrimFloat.is_nan b then PrimFloat.nan
  else if PrimFloat.ltb a b then b
  else if PrimFloat.ltb b a then a
  else if is_neg_zero a then b else a.

(** [Math.max(a, b, c)]: the fold starts from [-Infinity]. *)
Definition Math_max (a b c : float) : float :=
  max2 (max2 (max2 PrimFloat.neg_infinity a) b) c.

End JS.

(** ** The parts of three.js the camera uses *)

Module Vector3.
Record t (A : Type) : Type := mk { x : A; y : A; z : A }.
Arguments mk {A} _ _ _.
Arguments x {A} _.
Arguments y {A} _.
Arguments z {A} _.

Definition set_x {A} (v : t A) (a : A) : t A := mk a (y v) (z v).
Definition set_y {A} (v : t A) (a : A) : t A := mk (x v) a (z v).
Definition set_z {A} (v : t A) (a : A) : t A := mk (x v) (y v) a.
End Vector3.

Module Vector2.
Record t (A : Type) : Type := mk { x : A; y : A }.
Arguments mk {A} _ _.
Arguments x {A} _.
Arguments y {A} _.
End Vector2.

Module Box3.
Record t : Type := mk { min : Vector3.t float; max : Vector3.t float }.
End Box3.

Module Sphere.
Record t : Type := mk { center : Vector3.t float; radius : float }.
End Sphere.

(** A mesh enters [fit] only through [new THREE.Box3().setFromObject(mesh)],
    its world-space bounding box. *)
Record Mesh : Type := { setFromObject : Box3.t }.

(** [Box3.getSize] and [Box3.getCenter] are library code.  The camera is
    stated over any implementation of the two; [three_js] below is the one
    three.js ships. *)
Class Box3Api : Type := {
  getSize : Box3.t -> Vector3.t float;
  getCenter : Box3.t -> Vector3.t float
}.

Module ThreeJs.

(** [Box3.isEmpty]: some maximum lies below the matching minimum. *)
Definition isEmpty (b : Box3.t) : bool :=
  JS.lt (Vector3.x (Box3.max b)) (Vector3.x (Box3.min b))
  || JS.lt (Vector3.y (Box3.max b)) (Vector3.y (Box3.min b))
  || JS.lt (Vector3.z (Box3.max b)) (Vector3.z (Box3.min b)).

Definition zero3 : Vector3.t float := Vector3.mk 0%float 0%float 0%float.

(** [isEmpty() ? set(0,0,0) : subVectors(max, min)] *)
Definition getSize (b : Box3.t) : Vector3.t float :=
  if isEmpty b then zero3
  else Vector3.mk
         (PrimFloat.sub (Vector3.x (Box3.max b)) (Vector3.x (Box3.min b)))
         (PrimFloat.sub (Vector3.y (Box3.max b)) (Vector3.y (Box3.min b)))
         (PrimFloat.sub (Vector3.z (Box3.max b)) (Vector3.z (Box3.min b))).

(** [isEmpty() ? set(0,0,0) : addVectors(min, max).multiplyScalar(0.5)] *)
Definition getCenter (b : Box3.t) : Vector3.t float :=
  if isEmpty b then zero3
  else Vector3.mk
         (PrimFloat.mul (PrimFloat.add (Vector3.x (Box3.min b)) (Vector3.x (Box3.max b))) 0.5%float)
         (PrimFloat.mul (PrimFloat.add (Vector3.y (Box3.min b)) (Vector3.y (Box3.max b))) 0.5%float)
         (PrimFloat.mul (PrimFloat.add (Vector3.z (Box3.min b)) (Vector3.z (Box3.max b))) 0.5%float).

End ThreeJs.

Definition three_js : Box3Api :=
  {| getSize := ThreeJs.getSize; getCenter := ThreeJs.getCenter |}.

Module PerspectiveCamera.
(** [getWorldDirection] is the unit forward vector three.js derives from
    the camera's world matrix; [fov] is in degrees. *)
Record t : Type := mk {
  position : Vector3.t R;
  fov : R;
  getWorldDirection : Vector3.t R
}.
End PerspectiveCamera.

Module OrthographicCamera.
Record t : Type := mk {
  left : R; right : R; top : R; bottom : R;
  near : R; far : R;
  zoom : R
}.
End OrthographicCamera.

(** ** Navigation modes *)

Definition NavModeID : Type := string.

Module NavigationMode.
(** Modelled from the spec: the interface [NavigationMode] is declared in
    [./src], which is not among the sources.  Each variant exposes a stable
    [id] and [set(active, options?)].  An instance is its [id] together with
    the allocation index [ref] that tells two objects of one class apart. *)
Record t : Type := mk { id : NavModeID; ref : nat }.
End NavigationMode.

(** Modelled from the spec: the classes [OrbitMode], [FirstPersonMode] and
    [PlanMode] are in [./src] too; the state machine of the spec names their
    identifiers Orbit, FirstPerson and Plan. *)
Definition OrbitMode (r : nat) : NavigationMode.t := NavigationMode.mk "Orbit" r.
Definition FirstPersonMode (r : nat) : NavigationMode.t := NavigationMode.mk "FirstPerson" r.
Definition PlanMode (r : nat) : NavigationMode.t := NavigationMode.mk "Plan" r.

(** The options object of [NavigationMode.set]. *)
Record SetOptions : Type := { preventTargetAdjustment : bool }.

(** ** Controller, renderer and world *)

Module MouseButtons.
Record t : Type := mk { left : Z; right : Z; middle : Z; wheel : Z }.
End MouseButtons.

Module CameraControls.
Record t : Type := mk {
  mouseButtons : MouseButtons.t;
  getTarget : Vector3.t R
}.
End CameraControls.

Record Renderer : Type := { renderer_getSize : Vector2.t R }.

Record World : Type := { renderer : option Renderer }.

(** Calls the camera makes on its collaborators, in program order.  The
    bodies of these methods are outside the sources; what the camera does is
    which call it makes, on which object, with which arguments. *)
Inductive Call : Type :=
| ModeSet (m : NavigationMode.t) (active : bool) (options : option SetOptions)
| FitToSphere (sphere : Sphere.t) (enableTransition : bool)
| UpdateProjectionMatrix.

(** ** The camera object *)

(** [_userInputButtons] starts as the empty object [{}]; its four keys are
    only ever written together, by [disableUserInput].  [None] is [{}]. *)
Record OrthoPerspectiveCamera : Type := mkCamera {
  _mode : option NavigationMode.t;
  threeOrtho : OrthographicCamera.t;
  threePersp : PerspectiveCamera.t;
  _userInputButtons : option MouseButtons.t;
  _navigationModes : gmap string NavigationMode.t;
  (* inherited from SimpleCamera *)
  enabled : bool;
  controls : CameraControls.t;
  currentWorld : option World;
  (* instrumentation *)
  allocated : nat;
  calls : list Call
}.

Definition set__mode (m : option NavigationMode.t) (c : OrthoPerspectiveCamera) :=
  mkCamera m (threeOrtho c) (threePersp c) (_userInputButtons c)
    (_navigationModes c) (enabled c) (controls c) (currentWorld c)
    (allocated c) (calls c).

Definition set_threeOrtho (o : OrthographicCamera.t) (c : OrthoPerspectiveCamera) :=
  mkCamera (_mode c) o (threePersp c) (_userInputButtons c)
    (_navigationModes c) (enabled c) (controls c) (currentWorld c)
    (allocated c) (calls c).

Definition set__userInputButtons (b : option MouseButtons.t) (c : OrthoPerspectiveCamera) :=
  mkCamera (_mode c) (threeOrtho c) (threePersp c) b
    (_navigationModes c) (enabled c) (controls c) (currentWorld c)
    (allocated c) (calls c).

Definition set__navigationModes (r : gmap string NavigationMode.t) (c : OrthoPerspectiveCamera) :=
  mkCamera (_mode c) (threeOrtho c) (threePersp c) (_userInputButtons c)
    r (enabled c) (controls c) (currentWorld c)
    (allocated c) (calls c).

Definition set_mouseButtons (b : MouseButtons.t) (c : OrthoPerspectiveCamera) :=
  mkCamera (_mode c) (threeOrtho c) (threePersp c) (_userInputButtons c)
    (_navigationModes c) (enabled c)
    (CameraControls.mk b (CameraControls.getTarget (controls c)))
    (currentWorld c) (allocated c) (calls c).

Definition set_allocated (n : nat) (c : OrthoPerspectiveCamera) :=
  mkCamera (_mode c) (threeOrtho c) (threePersp c) (_userInputButtons c)
    (_navigationModes c) (enabled c) (controls c) (currentWorld c)
    n (calls c).

Definition push_call (k : Call) (c : OrthoPerspectiveCamera) :=
  mkCamera (_mode c) (threeOrtho c) (threePersp c) (_userInputButtons c)
    (_navigationModes c) (enabled c) (controls c) (currentWorld c)
    (allocated c) (calls c ++ [k]).

(** ** Methods: state passing with exceptions

    A method either completes normally or throws; either way the caller is
    left with the camera as it was at that point. *)

Record JsError : Type := { message : string }.

Definition NotInitialized : JsError :=
  {| message := "Mode not found, camera not initialized" |}.

Definition UnknownMode : JsError :=
  {| message := "The specified mode does not exist!" |}.

Inductive Completion (A : Type) : Type :=
| Normal (a : A)
| Throw (e : JsError).
Arguments Normal {A} _.
Arguments Throw {A} _.

Definition M (A : Type) : Type :=
  OrthoPerspectiveCamera -> Completion A * OrthoPerspectiveCamera.

Definition ret {A} (a : A) : M A := fun c => (Normal a, c).

Definition throw {A} (e : JsError) : M A := fun c => (Throw e, c).

Definition bind {A B} (m : M A) (k : A -> M B) : M B :=
  fun c =>
    match m c with
    | (Normal a, c') => k a c'
    | (Throw e, c') => (Throw e, c')
    end.

Definition modify (f : OrthoPerspectiveCamera -> OrthoPerspectiveCamera) : M unit :=
  fun c => (Normal tt, f c).

Definition read {A} (f : OrthoPerspectiveCamera -> A) : M A :=
  fun c => (Normal (f c), c).

Notation "x <- m ;; k" := (bind m (fun x => k))
  (at level 100, m at level 99, k at level 200, right associativity).
Notation "m ;;; k" := (bind m (fun _ => k))
  (at level 100, k at level 200, right associativity).

(** The completion and the camera a method leaves behind. *)
Definition completion {A} (m : M A) (c : OrthoPerspectiveCamera) : Completion A := fst (m c).
Definition after {A} (m : M A) (c : OrthoPerspectiveCamera) : OrthoPerspectiveCamera := snd (m c).

(** Modelled from the spec: [NavigationMode.set(active, options?)] is
    implemented in [./src]; the camera's part is the call itself. *)
Definition NavigationMode_set (m : NavigationMode.t) (active : bool)
    (options : option SetOptions) : M unit :=
  modify (push_call (ModeSet m active options)).

(** [new C(this)] for a mode class [C]. *)
Definition new_mode (C : nat -> NavigationMode.t) : M NavigationMode.t :=
  n <- read allocated ;;
  modify (set_allocated (S n)) ;;;
  ret (C n).

(** [get mode()] *)
Definition get_mode : M NavigationMode.t :=
  m <- read _mode ;;
  match m with
  | None => throw NotInitialized
  | Some m => ret m
  end.

(** The listener the constructor adds to [onWorldChanged]. *)
Definition onWorldChanged : M unit :=
  modify (set__navigationModes ∅) ;;;
  orbit <- new_mode OrbitMode ;;
  modify (fun c => set__navigationModes (<["Orbit" := orbit]> (_navigationModes c)) c) ;;;
  firstPerson <- new_mode FirstPersonMode ;;
  modify (fun c => set__navigationModes (<["FirstPerson" := firstPerson]> (_navigationModes c)) c) ;;;
  plan <- new_mode PlanMode ;;
  modify (fun c => set__navigationModes (<["Plan" := plan]> (_navigationModes c)) c) ;;;
  modify (fun c => set__mode (_navigationModes c !! "Orbit") c) ;;;
  m <- get_mode ;;
  NavigationMode_set m true (Some {| preventTargetAdjustment := true |}).

(** [set(mode)].  The getter hands out an object or throws, so the test
    [this.mode === null] of the first line never succeeds. *)
Definition set (mode : NavModeID) : M unit :=
  _ <- get_mode ;;
  m <- get_mode ;;
  if String.eqb (NavigationMode.id m) mode then ret tt
  else
    m <- get_mode ;;
    NavigationMode_set m false None ;;;
    has <- read (fun c => bool_decide (is_Some (_navigationModes c !! mode))) ;;
    if negb has then throw UnknownMode
    else
      modify (fun c => set__mode (_navigationModes c !! mode) c) ;;;
      m <- get_mode ;;
      NavigationMode_set m true None.

(** One turn of the loop of [fit]: fold the box of [mesh] into the running
    [min] and [max]. *)
Definition fit_loop_body (acc : Vector3.t float * Vector3.t float) (mesh : Mesh)
    : Vector3.t float * Vector3.t float :=
  let '(min, max) := acc in
  let box := setFromObject mesh in
  let min := if JS.lt (Vector3.x (Box3.min box)) (Vector3.x min)
             then Vector3.set_x min (Vector3.x (Box3.min box)) else min in
  let min := if JS.lt (Vector3.y (Box3.min box)) (Vector3.y min)
             then Vector3.set_y min (Vector3.y (Box3.min box)) else min in
  let min := if JS.lt (Vector3.z (Box3.min box)) (Vector3.z min)
             then Vector3.set_z min (Vector3.z (Box3.min box)) else min in
  let max := if JS.gt (Vector3.x (Box3.max box)) (Vector3.x max)
             then Vector3.set_x max (Vector3.x (Box3.max box)) else max in
  let max := if JS.gt (Vector3.y (Box3.max box)) (Vector3.y max)
             then Vector3.set_y max (Vector3.y (Box3.max box)) else max in
  let max := if JS.gt (Vector3.z (Box3.max box)) (Vector3.z max)
             then Vector3.set_z max (Vector3.z (Box3.max box)) else max in
  (min, max).

(** The box [fit] hands to three.js: the running [min] and [max] after the
    loop, started at [MAX_VALUE] and [MIN_VALUE]. *)
Definition fit_box (meshes : list Mesh) : Box3.t :=
  let maxNum := JS.MAX_VALUE in
  let minNum := JS.MIN_VALUE in
  let min := Vector3.mk maxNum maxNum maxNum in
  let max := Vector3.mk minNum minNum minNum in
  let '(min, max) := fold_left fit_loop_body meshes (min, max) in
  Box3.mk min max.

(** The sphere [fit] builds from the box. *)
Definition fit_sphere {api : Box3Api} (meshes : list Mesh) (offset : float) : Sphere.t :=
  let box := fit_box meshes in
  let sceneSize := getSize box in
  let sceneCenter := getCenter box in
  let radius :=
    PrimFloat.mul
      (JS.Math_max (Vector3.x sceneSize) (Vector3.y sceneSize) (Vector3.z sceneSize))
      offset in
  Sphere.mk sceneCenter radius.

(** [fit(meshes, offset)]; the awaited [controls.fitToSphere(sphere, true)]
    is the last thing it does. *)
Definition fit {api : Box3Api} (meshes : list Mesh) (offset : float) : M unit :=
  on <- read enabled ;;
  if negb on then ret tt
  else modify (push_call (FitToSphere (fit_sphere meshes offset) true)).

(** The default of the parameter [offset]. *)
Definition fit_default_offset : float := 1.5%float.

Definition disableUserInput : M unit :=
  modify (fun c =>
    let b := CameraControls.mouseButtons (controls c) in
    set__userInputButtons
      (Some (MouseButtons.mk (MouseButtons.left b) (MouseButtons.right b)
                             (MouseButtons.middle b) (MouseButtons.wheel b))) c) ;;;
  modify (set_mouseButtons (MouseButtons.mk 0 0 0 0)).

Definition enableUserInput : M unit :=
  snapshot <- read _userInputButtons ;;
  match snapshot with
  | None => ret tt
  | Some b =>
      modify (set_mouseButtons
                (MouseButtons.mk (MouseButtons.left b) (MouseButtons.right b)
                                 (MouseButtons.middle b) (MouseButtons.wheel b)))
  end.

Definition setUserInput (active : bool) : M unit :=
  if active then enableUserInput else disableUserInput.

Definition _frustumSize : R := 50.

(** [newOrthoCamera], from [window.innerWidth] and [window.innerHeight];
    three.js starts an orthographic camera at zoom 1. *)
Definition newOrthoCamera (innerWidth innerHeight : R) : OrthographicCamera.t :=
  let aspect := (innerWidth / innerHeight)%R in
  OrthographicCamera.mk
    ((_frustumSize * aspect) / -2)%R
    ((_frustumSize * aspect) / 2)%R
    (_frustumSize / 2)%R
    (_frustumSize / -2)%R
    (1 / 10)%R 1000%R 1%R.

Definition sub3 (a b : Vector3.t R) : Vector3.t R :=
  Vector3.mk (Vector3.x a - Vector3.x b)%R (Vector3.y a - Vector3.y b)%R
             (Vector3.z a - Vector3.z b)%R.

Definition dot (a b : Vector3.t R) : R :=
  (Vector3.x a * Vector3.x b + Vector3.y a * Vector3.y b + Vector3.z a * Vector3.z b)%R.

(** The look-at depth of [setOrthoCameraAspect]. *)
Definition depth_of (c : OrthoPerspectiveCamera) : R :=
  let lineOfSight := PerspectiveCamera.getWorldDirection (threePersp c) in
  let target := CameraControls.getTarget (controls c) in
  let distance := sub3 target (PerspectiveCamera.position (threePersp c)) in
  dot distance lineOfSight.

(** The height [setOrthoCameraAspect] computes from a depth and a field of
    view in degrees. *)
Definition ortho_height (depth fov : R) : R :=
  (depth * 2 * atan ((fov * (PI / 180)) / 2))%R.

Definition setOrthoCameraAspect : M unit :=
  world <- read currentWorld ;;
  match world with
  | None => ret tt
  | Some w =>
      match renderer w with
      | None => ret tt
      | Some r =>
          depth <- read depth_of ;;
          let dims := renderer_getSize r in
          let aspect := (Vector2.x dims / Vector2.y dims)%R in
          camera <- read threePersp ;;
          let height := ortho_height depth (PerspectiveCamera.fov camera) in
          let width := (height * aspect)%R in
          modify (fun c =>
            set_threeOrtho
              (OrthographicCamera.mk (width / -2)%R (width / 2)%R
                 (height / 2)%R (height / -2)%R
                 (OrthographicCamera.near (threeOrtho c))
                 (OrthographicCamera.far (threeOrtho c)) 1%R) c) ;;;
          modify (push_call UpdateProjectionMatrix)
      end
  end.

Module SimpleCamera.
(** What the constructor inherits: the base class is not among the
    sources, so its state at the end of [super(components)] is an input. *)
Record t : Type := mk {
  enabled : bool;
  controls : CameraControls.t;
  three : PerspectiveCamera.t;
  currentWorld : option World
}.
End SimpleCamera.

(** The camera at the end of the constructor. *)
Definition constructor (super : SimpleCamera.t) (innerWidth innerHeight : R)
    : OrthoPerspectiveCamera :=
  mkCamera None (newOrthoCamera innerWidth innerHeight) (SimpleCamera.three super)
    None ∅ (SimpleCamera.enabled super) (SimpleCamera.controls super)
    (SimpleCamera.currentWorld super) 0 [].

(** ** Sequences of calls on a camera *)

Inductive Op : Type :=
| GetMode
| SetMode (mode : NavModeID)
| Fit (meshes : list Mesh) (offset : float)
| SetUserInput (active : bool)
| AspectUpdated
| WorldChanged.

Definition step {api : Box3Api} (op : Op) : M unit :=
  match op with
  | GetMode => _ <- get_mode ;; ret tt
  | SetMode mode => set mode
  | Fit meshes offset => fit meshes offset
  | SetUserInput active => setUserInput active
  | AspectUpdated => setOrthoCameraAspect
  | WorldChanged => onWorldChanged
  end.

(** A thrown error goes to the caller; the camera stays as the throw left
    it and takes the next call. *)
Definition run {api : Box3Api} (ops : list Op) (c : OrthoPerspectiveCamera) : OrthoPerspectiveCamera :=
  fold_left (fun c op => after (step op) c) ops c.

Definition is_WorldChanged (op : Op) : bool :=
  match op with WorldChanged => true | _ => false end.

(** What the spec gives for the height of the orthographic frustum: the
    tangent of half the field of view. *)
Definition spec_ortho_height (depth fov : R) : R :=
  (depth * 2 * tan ((fov * (PI / 180)) / 2))%R.

(** A call that activates a mode without an options object, or any call
    that is not an activation. *)
Definition plain_activation (k : Call) : Prop :=
  match k with
  | ModeSet _ true options => options = None
  | _ => True
  end.

(** The union box in the words of the spec: the component-wise minimum of
    the box minima and maximum of the box maxima of a non-empty collection. *)
Definition spec_min (a b : float) : float := if JS.lt b a then b else a.
Definition spec_max (a b : float) : float := if JS.gt b a then b else a.

Definition spec_union (b : Box3.t) (mesh : Mesh) : Box3.t :=
  let m := setFromObject mesh in
  Box3.mk
    (Vector3.mk (spec_min (Vector3.x (Box3.min b)) (Vector3.x (Box3.min m)))
                (spec_min (Vector3.y (Box3.min b)) (Vector3.y (Box3.min m)))
                (spec_min (Vector3.z (Box3.min b)) (Vector3.z (Box3.min m))))
    (Vector3.mk (spec_max (Vector3.x (Box3.max b)) (Vector3.x (Box3.max m)))
                (spec_max (Vector3.y (Box3.max b)) (Vector3.y (Box3.max m)))
                (spec_max (Vector3.z (Box3.max b)) (Vector3.z (Box3.max m)))).

Definition spec_union_box (first : Mesh) (rest : list Mesh) : Box3.t :=
  fold_left spec_union rest (setFromObject first).

(** The sphere in the words of the spec: centred at the centre of the union
    box, with radius the offset times the largest extent. *)
Definition spec_fit_sphere (first : Mesh) (rest : list Mesh) (offset : float) : Sphere.t :=
  let box := spec_union_box first rest in
  let size := ThreeJs.getSize box in
  Sphere.mk (ThreeJs.getCenter box)
    (PrimFloat.mul offset (JS.Math_max (Vector3.x size) (Vector3.y size) (Vector3.z size))).

(** ** Concrete inputs *)

Definition v3 (a b c : float) : Vector3.t float := Vector3.mk a b c.

(** The two meshes of the spec's example for [fit]. *)
Definition meshA : Mesh :=
  {| setFromObject := Box3.mk (v3 (-1) (-1) (-1)) (v3 1 1 1) |}.
Definition meshB : Mesh :=
  {| setFromObject := Box3.mk (v3 0 0 0) (v3 3 3 3) |}.

(** A mesh that lies wholly in the negative octant. *)
Definition meshNeg : Mesh :=
  {| setFromObject := Box3.mk (v3 (-3) (-3) (-3)) (v3 (-1) (-1) (-1)) |}.

Definition no_bindings : MouseButtons.t := MouseButtons.mk 0 0 0 0.

Definition bindings_1248 : MouseButtons.t := MouseButtons.mk 1 2 4 8.

(** A perspective camera at (0,0,10) looking down the negative z axis at
    the origin, field of view 50 degrees, in a 1500 by 1000 viewport. *)
Definition persp50 : PerspectiveCamera.t :=
  PerspectiveCamera.mk (Vector3.mk 0 0 10)%R 50%R (Vector3.mk 0 0 (-1))%R.

Definition controls0 : CameraControls.t :=
  CameraControls.mk bindings_1248 (Vector3.mk 0 0 0)%R.

Definition world0 : World :=
  {| renderer := Some {| renderer_getSize := Vector2.mk 1500%R 1000%R |} |}.

(** Fresh from the constructor, no world-change event yet. *)
Definition camera0 : OrthoPerspectiveCamera :=
  constructor (SimpleCamera.mk true controls0 persp50 (Some world0)) 1500 1000.

(** The same camera with the component disabled. *)
Definition camera_off : OrthoPerspectiveCamera :=
  constructor (SimpleCamera.mk false controls0 persp50 (Some world0)) 1500 1000.

(** After the first world-change event. *)
Definition camera1 : OrthoPerspectiveCamera := after onWorldChanged camera0.

(** ** States of the mode registry *)

(** The identifiers under which the world-change listener registers modes. *)
Definition mode_ids : list NavModeID := ["Orbit"; "FirstPerson"; "Plan"].

(** No world-change event yet: no mode, empty registry. *)
Definition unbound (c : OrthoPerspectiveCamera) : Prop :=
  _mode c = None /\ _navigationModes c = ∅.

(** After a world-change event: the registry holds one instance of each
    class under its identifier, all allocated earlier, and [_mode] is one of
    its entries. *)
Definition bound (c : OrthoPerspectiveCamera) : Prop :=
  exists (o f p : nat) (m : NavigationMode.t),
    _navigationModes c
    = <["Plan" := PlanMode p]>
        (<["FirstPerson" := FirstPersonMode f]> (<["Orbit" := OrbitMode o]> ∅)) /\
    _mode c = Some m /\
    _navigationModes c !! NavigationMode.id m = Some m /\
    o < allocated c /\ f < allocated c /\ p < allocated c.

(** The calls made on navigation modes, in order: which instance, and
    whether it was switched on. *)
Fixpoint mode_calls (l : list Call) : list (NavigationMode.t * bool) :=
  match l with
  | [] => []
  | ModeSet m active _ :: l' => (m, active) :: mode_calls l'
  | _ :: l' => mode_calls l'
  end.

(** The current mode is the last one a call was made on, and that call
    switched it on. *)
Definition current_is_active (c : OrthoPerspectiveCamera) : Prop :=
  match _mode c with
  | None => mode_calls (calls c) = []
  | Some m => last (mode_calls (calls c)) = Some (m, true)
  end.

(** [SetMode] is only ever given one of the three registered identifiers. *)
Definition registered_ids_only (ops : list Op) : bool :=
  forallb (fun op =>
             match op with
             | SetMode mode => bool_decide (mode ∈ mode_ids)
             | _ => true
             end) ops.

(** A sequence of [setUserInput] calls. *)
Definition setUserInputs (flags : list bool) (c : OrthoPerspectiveCamera)
    : OrthoPerspectiveCamera :=
  fold_left (fun c active => after (setUserInput active) c) flags c.

(** ** The viewer example

    The first document of [src/examples/fragment/main.js] wires keyboard and
    double-click handlers to the tools.  The tools are library objects: a
    handler is stated over any implementation of the two [enabled] flags it
    reads and of the methods it calls. *)

Inductive ViewerCall : Type :=
| ToolsToggle (name : string)
| ToolsToggleAllVisibility
| ToolsPrintToolsState
| DimensionsCancelDrawing
| ClipperDeletePlane
| DimensionsDelete
| ClipperCreatePlane
| DimensionsCreate.

Class ViewerApi (T : Type) : Type := {
  clipper_enabled : T -> bool;
  dimensions_enabled : T -> bool;
  perform : ViewerCall -> T -> T
}.

(** The components and the calls made on them so far. *)
Definition Viewer (T : Type) : Type := (T * list ViewerCall)%type.

Definition invoke {T} {api : ViewerApi T} (k : ViewerCall) (v : Viewer T) : Viewer T :=
  (perform k (fst v), (snd v ++ [k])%list).

(** The statements under [case "Delete":]. *)
Definition case_Delete {T} {api : ViewerApi T} (v : Viewer T) : Viewer T :=
  let v := if clipper_enabled (fst v) then invoke ClipperDeletePlane v else v in
  if dimensions_enabled (fst v) then invoke DimensionsDelete v else v.

(** [window.onkeydown], on [event.code].  [case "KeyP":] has no [break] and
    runs on into [case "Delete":]. *)
Definition onkeydown {T} {api : ViewerApi T} (code : string) (v : Viewer T) : Viewer T :=
  if String.eqb code "KeyC" then invoke (ToolsToggle "clipper") v
  else if String.eqb code "KeyD" then invoke (ToolsToggle "dimensions") v
  else if String.eqb code "KeyH" then invoke ToolsToggleAllVisibility v
  else if String.eqb code "Escape" then
    if dimensions_enabled (fst v) then invoke DimensionsCancelDrawing v else v
  else if String.eqb code "KeyP" then case_Delete (invoke ToolsPrintToolsState v)
  else if String.eqb code "Delete" then case_Delete v
  else v.

(** [window.ondblclick] *)
Definition ondblclick {T} {api : ViewerApi T} (v : Viewer T) : Viewer T :=
  if clipper_enabled (fst v) then invoke ClipperCreatePlane v
  else if dimensions_enabled (fst v) then invoke DimensionsCreate v
  else v.

(** The codes [onkeydown] has a case for. *)
Definition handled_codes : list string :=
  ["KeyC"; "KeyD"; "KeyH"; "Escape"; "KeyP"; "Delete"].

(** Calls that remove something. *)
Definition is_deletion (k : ViewerCall) : bool :=
  match k with
  | ClipperDeletePlane | DimensionsDelete => true
  | _ => false
  end.

(** Calls that create something. *)
Definition is_creation (k : ViewerCall) : bool :=
  match k with
  | ClipperCreatePlane | DimensionsCreate => true
  | _ => false
  end.

(** A viewer whose tools are two flags: [tools.toggle(name)] flips the flag
    of the named tool and nothing else touches a flag. *)
Definition flag_tools : ViewerApi (bool * bool) :=
  {| clipper_enabled := fst;
     dimensions_enabled := snd;
     perform k t :=
       match k with
       | ToolsToggle name =>
           if String.eqb name "clipper" then (negb (fst t), snd t)
           else if String.eqb name "dimensions" then (fst t, negb (snd t))
           else t
       | _ => t
       end |}.

(** ** Importer settings ([fragment-ifc-importer/settings.ts]) *)

(** The category codes of web-ifc that [Settings] names; their values are
    in the web-ifc package. *)
Record WebIfc : Type := {
  IFCSPACE : N;
  IFCFURNISHINGELEMENT : N;
  IFCWINDOW : N;
  IFCDOOR : N
}.

Record LoaderSettings : Type := {
  COORDINATE_TO_ORIGIN : bool;
  USE_FAST_BOOLS : bool
}.

Module Settings.

Record t : Type := mk {
  instancedCategories : gset N;
  optionalCategories : list N;
  wasmPath : string;
  webIfc : LoaderSettings
}.

(** The field initializers, then the three [add] of the constructor. *)
Definition constructor (W : WebIfc) : t :=
  let instanced : gset N := ∅ in
  let instanced := {[ IFCFURNISHINGELEMENT W ]} ∪ instanced in
  let instanced := {[ IFCWINDOW W ]} ∪ instanced in
  let instanced := {[ IFCDOOR W ]} ∪ instanced in
  mk instanced [IFCSPACE W] ""
     {| COORDINATE_TO_ORIGIN := true; USE_FAST_BOOLS := false |}.

Definition setWasmPath (path : string) (s : t) : t :=
  mk (instancedCategories s) (optionalCategories s) path (webIfc s).

End Settings.

(** * Properties *)

(** ** The mode getter and the mode switch *)

Lemma NotInitialized_neq_UnknownMode : NotInitialized <> UnknownMode.
Proof. discriminate. Qed.

Lemma get_mode_null (c : OrthoPerspectiveCamera) :
  _mode c = None -> get_mode c = (Throw NotInitialized, c).
Proof. intros E. unfold get_mode, bind, read. rewrite E. reflexivity. Qed.

Lemma get_mode_object (c : OrthoPerspectiveCamera) (m : NavigationMode.t) :
  _mode c = Some m -> get_mode c = (Normal m, c).
Proof. intros E. unfold get_mode, bind, read. rewrite E. reflexivity. Qed.

(** The four ways through [set]. *)

Lemma set_null (c : OrthoPerspectiveCamera) (mode : NavModeID) :
  _mode c = None -> set mode c = (Throw NotInitialized, c).
Proof. intros E. unfold set, bind. rewrite (get_mode_null c E). reflexivity. Qed.

Lemma set_same (c : OrthoPerspectiveCamera) (m : NavigationMode.t) (mode : NavModeID) :
  _mode c = Some m -> NavigationMode.id m = mode -> set mode c = (Normal tt, c).
Proof.
  intros E Hid. unfold set, bind. rewrite !(get_mode_object c m E).
  apply String.eqb_eq in Hid. rewrite Hid. reflexivity.
Qed.

Lemma set_unknown (c : OrthoPerspectiveCamera) (m : NavigationMode.t) (mode : NavModeID) :
  _mode c = Some m -> NavigationMode.id m <> mode ->
  _navigationModes c !! mode = None ->
  set mode c = (Throw UnknownMode, push_call (ModeSet m false None) c).
Proof.
  intros E Hid Hreg. unfold set, bind. rewrite !(get_mode_object c m E).
  apply String.eqb_neq in Hid. rewrite Hid.
  rewrite (get_mode_object c m E).
  unfold NavigationMode_set, modify, read. cbn [_navigationModes push_call].
  rewrite Hreg. reflexivity.
Qed.

Lemma set_switch (c : OrthoPerspectiveCamera) (m m' : NavigationMode.t) (mode : NavModeID) :
  _mode c = Some m -> NavigationMode.id m <> mode ->
  _navigationModes c !! mode = Some m' ->
  set mode c =
    (Normal tt,
     push_call (ModeSet m' true None)
       (set__mode (Some m') (push_call (ModeSet m false None) c))).
Proof.
  intros E Hid Hreg. unfold set, bind. rewrite !(get_mode_object c m E).
  apply String.eqb_neq in Hid. rewrite Hid.
  rewrite (get_mode_object c m E).
  unfold NavigationMode_set, modify, read. cbn [_navigationModes push_call].
  rewrite Hreg. cbn [negb bool_decide decide_rel is_Some_dec].
  unfold get_mode, bind, read. cbn [_navigationModes _mode set__mode push_call].
  rewrite Hreg. reflexivity.
Qed.

(** Without a world-change event nothing ever sets [_mode] or fills the
    registry. *)
Lemma step_keeps_uninitialized {api : Box3Api} (op : Op) (c : OrthoPerspectiveCamera) :
  is_WorldChanged op = false ->
  _mode c = None /\ _navigationModes c = ∅ ->
  _mode (after (step op) c) = None /\ _navigationModes (after (step op) c) = ∅.
Proof.
  intros Hop [Hm Hr]. unfold after.
  destruct op as [| mode | meshes offset | active | |]; cbn [step].
  - unfold bind. rewrite (get_mode_null c Hm). auto.
  - rewrite (set_null c mode Hm). auto.
  - unfold fit, bind, read, modify. destruct (enabled c); auto.
  - destruct active; cbn [setUserInput].
    + unfold enableUserInput, bind, read, modify.
      destruct (_userInputButtons c); auto.
    + unfold disableUserInput, bind, modify. auto.
  - unfold setOrthoCameraAspect, bind, read, modify.
    destruct (currentWorld c) as [w |]; [| auto].
    destruct (renderer w); auto.
  - discriminate Hop.
Qed.

Lemma run_keeps_uninitialized {api : Box3Api} (ops : list Op) (c : OrthoPerspectiveCamera) :
  forallb (fun op => negb (is_WorldChanged op)) ops = true ->
  _mode c = None /\ _navigationModes c = ∅ ->
  _mode (run ops c) = None /\ _navigationModes (run ops c) = ∅.
Proof.
  revert c. induction ops as [| op ops IH]; intros c Hops Hc; [exact Hc |].
  cbn [forallb] in Hops. apply andb_prop in Hops as [Hop Hops].
  apply negb_true_iff in Hop.
  cbn [run fold_left]. apply IH; [exact Hops |].
  apply step_keeps_uninitialized; assumption.
Qed.

(** C7.  Before any world-change event the registry is empty, no mode is
    set, and reading the [mode] getter throws the "not initialized" error:
    this holds straight after the constructor and after any sequence of
    other calls on the camera (getter, [set], [fit], [setUserInput], aspect
    updates). *)
Theorem mode_getter_before_world_bind {api : Box3Api}
    (super : SimpleCamera.t) (innerWidth innerHeight : R) (ops : list Op) :
  forallb (fun op => negb (is_WorldChanged op)) ops = true ->
  let c := run ops (constructor super innerWidth innerHeight) in
  _navigationModes c = ∅ /\ _mode c = None /\
  get_mode c = (Throw NotInitialized, c).
Proof.
  intros Hops c.
  destruct (run_keeps_uninitialized ops (constructor super innerWidth innerHeight) Hops)
    as [Hm Hr]; [split; reflexivity |].
  fold c in Hm, Hr. repeat split; [exact Hr | exact Hm |].
  apply get_mode_null, Hm.
Qed.

Lemma mode_getter_before_world_bind_witness :
  get_mode (run (api := three_js) [SetUserInput false; SetMode "Plan"; Fit [meshA] 2; AspectUpdated; GetMode] camera0)
  = (Throw NotInitialized,
     run (api := three_js) [SetUserInput false; SetMode "Plan"; Fit [meshA] 2; AspectUpdated; GetMode] camera0).
Proof.
  apply (mode_getter_before_world_bind (api := three_js)
           (SimpleCamera.mk true controls0 persp50 (Some world0)) 1500 1000
           [SetUserInput false; SetMode "Plan"; Fit [meshA] 2; AspectUpdated; GetMode]).
  reflexivity.
Defined.

(** C9.  While [_mode] is still null, [set(id)] throws the "camera not
    initialized" error of the getter, which is not the "unknown mode" error,
    whatever [id] is and whether or not it is a key of the registry; the
    camera is left as it was. *)
Theorem set_before_world_bind (c : OrthoPerspectiveCamera) (mode : NavModeID) :
  _mode c = None ->
  completion (set mode) c = Throw NotInitialized /\
  completion (set mode) c <> Throw UnknownMode /\
  after (set mode) c = c.
Proof.
  intros E. unfold completion, after. rewrite (set_null c mode E).
  repeat split. cbn [fst]. intros Heq. inversion Heq.
Qed.

Lemma set_before_world_bind_witness :
  completion (set "Nonexistent") camera0 = Throw NotInitialized /\
  completion (set "Nonexistent") camera0 <> Throw UnknownMode /\
  after (set "Nonexistent") camera0 = camera0.
Proof. apply (set_before_world_bind camera0 "Nonexistent"). reflexivity. Defined.

(** C2, as the code runs.  With a mode active, [set(id)] for an [id] that
    is not a key of the registry throws the "unknown mode" error and leaves
    [_mode] and the registry as they were, but the throw comes after
    [this.mode.set(false)]: exactly one call has been made, and it
    deactivates the active mode.  After a world change, [set("Nonexistent")]
    deactivates Orbit. *)
Theorem set_unknown_mode_deactivates_first
    (c : OrthoPerspectiveCamera) (m : NavigationMode.t) (mode : NavModeID) :
  _mode c = Some m ->
  NavigationMode.id m <> mode ->
  _navigationModes c !! mode = None ->
  let c' := after (set mode) c in
  completion (set mode) c = Throw UnknownMode /\
  _mode c' = Some m /\
  _navigationModes c' = _navigationModes c /\
  calls c' = (calls c ++ [ModeSet m false None])%list /\
  calls c' <> calls c.
Proof.
  intros E Hid Hreg c'. subst c'. unfold completion, after.
  rewrite (set_unknown c m mode E Hid Hreg). cbn [fst snd].
  split; [reflexivity |]. split; [exact E |]. split; [reflexivity |].
  split; [reflexivity |].
  cbn [push_call calls]. intros Heq.
  apply (f_equal (@length Call)) in Heq.
  rewrite length_app in Heq. cbn [length] in Heq. lia.
Qed.

Lemma set_unknown_mode_deactivates_first_witness :
  completion (set "Nonexistent") camera1 = Throw UnknownMode /\
  _mode (after (set "Nonexistent") camera1) = Some (OrbitMode 0) /\
  calls (after (set "Nonexistent") camera1)
  = [ModeSet (OrbitMode 0) true (Some {| preventTargetAdjustment := true |});
     ModeSet (OrbitMode 0) false None].
Proof.
  destruct (set_unknown_mode_deactivates_first camera1 (OrbitMode 0) "Nonexistent")
    as (Hthrow & Hmode & _ & Hcalls & _);
    [reflexivity | discriminate | reflexivity |].
  split; [exact Hthrow |]. split; [exact Hmode | exact Hcalls].
Defined.

Lemma registry_after_world_change (c : OrthoPerspectiveCamera) :
  _navigationModes (after onWorldChanged c)
  = <["Plan" := PlanMode (S (S (allocated c)))]>
      (<["FirstPerson" := FirstPersonMode (S (allocated c))]>
         (<["Orbit" := OrbitMode (allocated c)]> ∅)).
Proof. reflexivity. Qed.

Lemma set_appends_plain_calls (d : OrthoPerspectiveCamera) (mode : NavModeID) :
  exists l : list Call,
    calls (after (set mode) d) = (calls d ++ l)%list /\ Forall plain_activation l.
Proof.
  unfold after. destruct (_mode d) as [m |] eqn:E.
  - destruct (String.eqb_spec (NavigationMode.id m) mode) as [Hid | Hid].
    + exists []. rewrite (set_same d m mode E Hid). cbn [snd].
      split; [symmetry; apply app_nil_r | constructor].
    + destruct (_navigationModes d !! mode) as [m' |] eqn:Hreg.
      * exists [ModeSet m false None; ModeSet m' true None].
        rewrite (set_switch d m m' mode E Hid Hreg). cbn [snd push_call set__mode calls].
        split; [rewrite <- app_assoc; reflexivity |].
        repeat constructor.
      * exists [ModeSet m false None].
        rewrite (set_unknown d m mode E Hid Hreg). cbn [snd push_call calls].
        split; [reflexivity | repeat constructor].
  - exists []. rewrite (set_null d mode E). cbn [snd].
    split; [symmetry; apply app_nil_r | constructor].
Qed.

(** C8.  The world-change listener completes normally and leaves a
    registry of exactly three freshly built modes under the keys Orbit,
    FirstPerson and Plan, whatever the registry held before; [_mode] is the
    new Orbit instance; the one call it makes on a mode is
    [set(true, { preventTargetAdjustment: true })] on that instance.  The
    calls that a later [set(id)] makes on modes carry no options object. *)
Theorem world_change_rebuilds_and_activates_orbit (c : OrthoPerspectiveCamera) :
  let c' := after onWorldChanged c in
  let orbit := OrbitMode (allocated c) in
  completion onWorldChanged c = Normal tt /\
  _navigationModes c'
    = <["Plan" := PlanMode (S (S (allocated c)))]>
        (<["FirstPerson" := FirstPersonMode (S (allocated c))]>
           (<["Orbit" := orbit]> ∅)) /\
  (forall id : string,
      is_Some (_navigationModes c' !! id)
      <-> id = "Orbit" \/ id = "FirstPerson" \/ id = "Plan") /\
  _mode c' = Some orbit /\
  calls c' = (calls c ++ [ModeSet orbit true (Some {| preventTargetAdjustment := true |})])%list /\
  (forall (d : OrthoPerspectiveCamera) (mode : NavModeID),
      exists l : list Call,
        calls (after (set mode) d) = (calls d ++ l)%list /\ Forall plain_activation l).
Proof.
  intros c' orbit. split; [reflexivity |]. split; [reflexivity |].
  split; [| split; [reflexivity | split; [reflexivity | apply set_appends_plain_calls]]].
  intros id. subst c'. rewrite registry_after_world_change.
  rewrite !lookup_insert_is_Some'.
  split.
  - intros [<- | [<- | [<- | Hempty]]]; auto.
    exfalso. exact (lookup_empty_is_Some id Hempty).
  - intros [-> | [-> | ->]]; auto.
Qed.

(** ** User input *)

Lemma MouseButtons_eta (b : MouseButtons.t) :
  MouseButtons.mk (MouseButtons.left b) (MouseButtons.right b)
                  (MouseButtons.middle b) (MouseButtons.wheel b) = b.
Proof. destruct b; reflexivity. Qed.

Lemma disableUserInput_spec (c : OrthoPerspectiveCamera) :
  disableUserInput c
  = (Normal tt,
     set_mouseButtons no_bindings
       (set__userInputButtons (Some (CameraControls.mouseButtons (controls c))) c)).
Proof.
  unfold disableUserInput, bind, modify. rewrite MouseButtons_eta. reflexivity.
Qed.

Lemma enableUserInput_empty (c : OrthoPerspectiveCamera) :
  _userInputButtons c = None -> enableUserInput c = (Normal tt, c).
Proof. intros E. unfold enableUserInput, bind, read. rewrite E. reflexivity. Qed.

Lemma enableUserInput_captured (c : OrthoPerspectiveCamera) (b : MouseButtons.t) :
  _userInputButtons c = Some b ->
  enableUserInput c = (Normal tt, set_mouseButtons b c).
Proof.
  intros E. unfold enableUserInput, bind, read, modify. rewrite E.
  rewrite MouseButtons_eta. reflexivity.
Qed.

(** C6.  For any four bindings, [setUserInput(false)] stores them in the
    snapshot and sets the four bindings of the controller to 0; the
    [setUserInput(true)] that follows puts the stored values back.  With an
    empty snapshot [setUserInput(true)] changes nothing. *)
Theorem setUserInput_round_trip (c : OrthoPerspectiveCamera) :
  let b := CameraControls.mouseButtons (controls c) in
  let c1 := after (setUserInput false) c in
  _userInputButtons c1 = Some b /\
  CameraControls.mouseButtons (controls c1) = no_bindings /\
  CameraControls.mouseButtons (controls (after (setUserInput true) c1)) = b /\
  (_userInputButtons c = None -> setUserInput true c = (Normal tt, c)).
Proof.
  intros b c1. subst c1. unfold after. cbn [setUserInput].
  rewrite disableUserInput_spec. cbn [snd].
  split; [reflexivity |]. split; [reflexivity |]. split.
  - erewrite enableUserInput_captured by reflexivity. reflexivity.
  - apply enableUserInput_empty.
Qed.

Lemma setUserInput_round_trip_witness :
  CameraControls.mouseButtons
    (controls (after (setUserInput true) (after (setUserInput false) camera0)))
  = MouseButtons.mk 1 2 4 8 /\
  setUserInput true camera0 = (Normal tt, camera0).
Proof.
  destruct (setUserInput_round_trip camera0) as (_ & _ & Hback & Hempty).
  split; [exact Hback | apply Hempty; reflexivity].
Defined.

(** C10.  A second [setUserInput(false)] in a row stores the zeroed
    bindings over the snapshot, so the [setUserInput(true)] that follows
    sets the four bindings to 0; whenever the bindings before the first
    disable were not all 0, they are lost. *)
Theorem setUserInput_disable_twice (c : OrthoPerspectiveCamera) :
  let c2 := after (setUserInput false) (after (setUserInput false) c) in
  let restored := CameraControls.mouseButtons (controls (after (setUserInput true) c2)) in
  _userInputButtons c2 = Some no_bindings /\
  restored = no_bindings /\
  (CameraControls.mouseButtons (controls c) <> no_bindings ->
   restored <> CameraControls.mouseButtons (controls c)).
Proof.
  intros c2 restored.
  assert (Hsnap : _userInputButtons c2 = Some no_bindings).
  { subst c2. unfold after. cbn [setUserInput].
    rewrite !disableUserInput_spec. reflexivity. }
  assert (Hres : restored = no_bindings).
  { subst restored. unfold after at 1. cbn [setUserInput].
    rewrite (enableUserInput_captured c2 no_bindings Hsnap). reflexivity. }
  split; [exact Hsnap |]. split; [exact Hres |].
  intros Hne Heq. apply Hne. rewrite <- Heq. exact Hres.
Qed.

Lemma setUserInput_disable_twice_witness :
  CameraControls.mouseButtons
    (controls (after (setUserInput true)
                 (after (setUserInput false) (after (setUserInput false) camera0))))
  <> MouseButtons.mk 1 2 4 8.
Proof.
  destruct (setUserInput_disable_twice camera0) as (_ & _ & Hlost).
  apply Hlost. discriminate.
Defined.

(** ** [fit] *)

Lemma fit_disabled {api : Box3Api} (c : OrthoPerspectiveCamera) (meshes : list Mesh) (offset : float) :
  enabled c = false -> fit meshes offset c = (Normal tt, c).
Proof. intros E. unfold fit, bind, read. rewrite E. reflexivity. Qed.

Lemma fit_enabled {api : Box3Api} (c : OrthoPerspectiveCamera) (meshes : list Mesh) (offset : float) :
  enabled c = true ->
  fit meshes offset c
  = (Normal tt, push_call (FitToSphere (fit_sphere meshes offset) true) c).
Proof. intros E. unfold fit, bind, read. rewrite E. reflexivity. Qed.

Lemma setUserInput_keeps_enabled (c : OrthoPerspectiveCamera) (active : bool) :
  enabled (after (setUserInput active) c) = enabled c.
Proof.
  unfold after. destruct active; cbn [setUserInput].
  - unfold enableUserInput, bind, read, modify.
    destruct (_userInputButtons c); reflexivity.
  - rewrite disableUserInput_spec. reflexivity.
Qed.

Lemma push_call_neq (k : Call) (c : OrthoPerspectiveCamera) : push_call k c <> c.
Proof.
  intros Heq. apply (f_equal (fun d => length (calls d))) in Heq.
  cbn [push_call calls] in Heq. rewrite length_app in Heq. cbn [length] in Heq. lia.
Qed.

(** The box the loop leaves for an empty collection. *)
Lemma fit_box_nil :
  fit_box []
  = Box3.mk (v3 JS.MAX_VALUE JS.MAX_VALUE JS.MAX_VALUE)
            (v3 JS.MIN_VALUE JS.MIN_VALUE JS.MIN_VALUE).
Proof. reflexivity. Qed.

(** three.js reads that box as empty: size and centre are both (0,0,0). *)
Lemma fit_sphere_nil_three_js (offset : float) :
  fit_sphere (api := three_js) [] offset
  = Sphere.mk (v3 0 0 0) (PrimFloat.mul 0 offset).
Proof. reflexivity. Qed.

(** C3, counterexample.  On the enabled camera, [fit([], 1.5)] completes
    normally, and it does call [fitToSphere], with the sphere derived from
    the box that the loop never touched. *)
Lemma fit_empty_calls_fitToSphere :
  enabled camera0 = true /\
  completion (fit (api := three_js) [] fit_default_offset) camera0 = Normal tt /\
  after (fit (api := three_js) [] fit_default_offset) camera0 <> camera0 /\
  calls (after (fit (api := three_js) [] fit_default_offset) camera0)
  = [FitToSphere (fit_sphere (api := three_js) [] fit_default_offset) true] /\
  fit_sphere (api := three_js) [] fit_default_offset = Sphere.mk (v3 0 0 0) 0.
Proof.
  split; [reflexivity |]. split; [reflexivity |]. split.
  - unfold after. rewrite fit_enabled by reflexivity. apply push_call_neq.
  - split; reflexivity.
Qed.

(** C3, as the code has it.  [fit] has no branch for the empty collection.
    With the camera component enabled it completes normally after one
    [fitToSphere(sphere, true)], where the sphere is built from the box
    whose minimum is [MAX_VALUE] and whose maximum is [MIN_VALUE] on every
    axis; three.js answers (0,0,0) for the size and the centre of such a
    box, so the sphere is centred at the origin with radius [0 * offset]. *)
Theorem fit_empty_collection {api : Box3Api} (c : OrthoPerspectiveCamera) (offset : float) :
  enabled c = true ->
  fit_box [] = Box3.mk (v3 JS.MAX_VALUE JS.MAX_VALUE JS.MAX_VALUE)
                       (v3 JS.MIN_VALUE JS.MIN_VALUE JS.MIN_VALUE) /\
  fit [] offset c
  = (Normal tt, push_call (FitToSphere (fit_sphere [] offset) true) c) /\
  calls (after (fit [] offset) c)
  = (calls c ++ [FitToSphere (fit_sphere [] offset) true])%list /\
  fit_sphere (api := three_js) [] offset = Sphere.mk (v3 0 0 0) (PrimFloat.mul 0 offset).
Proof.
  intros E. split; [exact fit_box_nil |].
  unfold after. rewrite (fit_enabled c [] offset E).
  repeat split.
Qed.

Lemma fit_empty_collection_witness :
  calls (after (fit (api := three_js) [] fit_default_offset) camera0)
  = [FitToSphere (fit_sphere (api := three_js) [] fit_default_offset) true].
Proof.
  destruct (fit_empty_collection (api := three_js) camera0 fit_default_offset)
    as (_ & _ & Hcalls & _); [reflexivity | exact Hcalls].
Defined.

(** The example of the spec: boxes [(-1,-1,-1),(1,1,1)] and
    [(0,0,0),(3,3,3)] with offset 2 give the union box [(-1,-1,-1),(3,3,3)],
    centre (1,1,1) and radius 8, and the code agrees with the words of the
    spec there. *)
Lemma fit_spec_example :
  fit_box [meshA; meshB] = Box3.mk (v3 (-1) (-1) (-1)) (v3 3 3 3) /\
  fit_box [meshA; meshB] = spec_union_box meshA [meshB] /\
  fit_sphere (api := three_js) [meshA; meshB] 2 = Sphere.mk (v3 1 1 1) 8 /\
  calls (after (fit (api := three_js) [meshA; meshB] 2) camera0)
  = [FitToSphere (Sphere.mk (v3 1 1 1) 8) true].
Proof. repeat split. Qed.

(** C4, at the failing input.  For the single mesh with box
    [(-3,-3,-3),(-1,-1,-1)] the running maximum starts at
    [Number.MIN_VALUE], which is positive, and no box maximum exceeds it:
    the maximum of the box of [fit] is [MIN_VALUE] on every axis instead of
    -1.  The sphere handed to [fitToSphere] with offset 1.5 has centre
    (-1.5,-1.5,-1.5) and radius 4.5, where the union box gives (-2,-2,-2)
    and 3. *)
Theorem fit_negative_octant :
  fit_box [meshNeg]
  = Box3.mk (v3 (-3) (-3) (-3)) (v3 JS.MIN_VALUE JS.MIN_VALUE JS.MIN_VALUE) /\
  spec_union_box meshNeg [] = Box3.mk (v3 (-3) (-3) (-3)) (v3 (-1) (-1) (-1)) /\
  fit_box [meshNeg] <> spec_union_box meshNeg [] /\
  fit_sphere (api := three_js) [meshNeg] 1.5 = Sphere.mk (v3 (-1.5) (-1.5) (-1.5)) 4.5 /\
  spec_fit_sphere meshNeg [] 1.5 = Sphere.mk (v3 (-2) (-2) (-2)) 3 /\
  calls (after (fit (api := three_js) [meshNeg] 1.5) camera0)
  = [FitToSphere (Sphere.mk (v3 (-1.5) (-1.5) (-1.5)) 4.5) true].
Proof.
  split; [reflexivity |]. split; [reflexivity |]. split.
  - intros Heq.
    apply (f_equal (fun b => PrimFloat.ltb 0 (Vector3.x (Box3.max b)))) in Heq.
    vm_compute in Heq. discriminate Heq.
  - repeat split.
Qed.

(** C5, counterexample.  After [setUserInput(false)] the four bindings are
    0, and [fit] on the one-box collection [(-1,-1,-1),(1,1,1)] still calls
    [fitToSphere]. *)
Lemma fit_runs_with_user_input_disabled :
  let c := after (setUserInput false) camera0 in
  CameraControls.mouseButtons (controls c) = no_bindings /\
  calls c = [] /\
  after (fit (api := three_js) [meshA] fit_default_offset) c <> c /\
  calls (after (fit (api := three_js) [meshA] fit_default_offset) c)
  = [FitToSphere (Sphere.mk (v3 0 0 0) 3) true].
Proof.
  intros c. split; [reflexivity |]. split; [reflexivity |]. split.
  - unfold after at 1. rewrite fit_enabled by reflexivity. apply push_call_neq.
  - reflexivity.
Qed.

(** C5, as the code has it.  The gate of [fit] is the [enabled] flag of the
    camera component: with [enabled] false every call to [fit] returns at
    once, leaving the camera untouched and [fitToSphere] uncalled.
    [setUserInput] never changes [enabled]; with [enabled] true, [fit]
    calls [fitToSphere] once, also after [setUserInput(false)]. *)
Theorem fit_gated_by_enabled {api : Box3Api}
    (c : OrthoPerspectiveCamera) (meshes : list Mesh) (offset : float) :
  (enabled c = false -> fit meshes offset c = (Normal tt, c)) /\
  (forall active : bool, enabled (after (setUserInput active) c) = enabled c) /\
  (enabled c = true ->
   let c' := after (setUserInput false) c in
   fit meshes offset c'
   = (Normal tt, push_call (FitToSphere (fit_sphere meshes offset) true) c')).
Proof.
  split; [apply fit_disabled |]. split; [apply setUserInput_keeps_enabled |].
  intros E c'. apply fit_enabled. subst c'.
  rewrite setUserInput_keeps_enabled. exact E.
Qed.

Lemma fit_gated_by_enabled_witness :
  fit (api := three_js) [meshA] fit_default_offset camera_off = (Normal tt, camera_off) /\
  calls (after (fit (api := three_js) [meshA] fit_default_offset)
           (after (setUserInput false) camera0))
  = [FitToSphere (fit_sphere (api := three_js) [meshA] fit_default_offset) true].
Proof.
  split.
  - destruct (fit_gated_by_enabled (api := three_js) camera_off [meshA] fit_default_offset)
      as (Hoff & _ & _).
    apply Hoff. reflexivity.
  - destruct (fit_gated_by_enabled (api := three_js) camera0 [meshA] fit_default_offset)
      as (_ & _ & Hon).
    unfold after at 1. rewrite Hon by reflexivity. reflexivity.
Defined.

(** ** The orthographic frustum *)

Lemma setOrthoCameraAspect_no_world (c : OrthoPerspectiveCamera) :
  currentWorld c = None -> setOrthoCameraAspect c = (Normal tt, c).
Proof. intros E. unfold setOrthoCameraAspect, bind, read. rewrite E. reflexivity. Qed.

Lemma setOrthoCameraAspect_no_renderer (c : OrthoPerspectiveCamera) (w : World) :
  currentWorld c = Some w -> renderer w = None ->
  setOrthoCameraAspect c = (Normal tt, c).
Proof.
  intros E Er. unfold setOrthoCameraAspect, bind, read. rewrite E, Er. reflexivity.
Qed.

(** With a world and a renderer, the extents are symmetric around zero in
    the height the code computes and the width it derives from it, zoom is
    1 and the projection matrix is recomputed. *)
Lemma setOrthoCameraAspect_rendered (c : OrthoPerspectiveCamera) (w : World) (r : Renderer) :
  currentWorld c = Some w -> renderer w = Some r ->
  let height := ortho_height (depth_of c) (PerspectiveCamera.fov (threePersp c)) in
  let width :=
    (height * (Vector2.x (renderer_getSize r) / Vector2.y (renderer_getSize r)))%R in
  setOrthoCameraAspect c
  = (Normal tt,
     push_call UpdateProjectionMatrix
       (set_threeOrtho
          (OrthographicCamera.mk (width / -2)%R (width / 2)%R
             (height / 2)%R (height / -2)%R
             (OrthographicCamera.near (threeOrtho c))
             (OrthographicCamera.far (threeOrtho c)) 1%R) c)).
Proof.
  intros E Er height width.
  unfold setOrthoCameraAspect, bind, read, modify. rewrite E, Er. reflexivity.
Qed.

Section Arctangent.

Local Open Scope R_scope.

(** The partial sums of the arctangent series enclose [atan] on (0,1). *)
Lemma atan_series_bounds (x : R) (N : nat) :
  0 < x < 1 ->
  sum_f_R0 (tg_alt (Ratan_seq x)) (S (2 * N)) <= atan x
    <= sum_f_R0 (tg_alt (Ratan_seq x)) (2 * N).
Proof.
  intros Hx.
  assert (H01 : 0 <= x <= 1) by lra.
  rewrite (atan_eq_ps_atan x Hx).
  unfold ps_atan.
  destruct (Ratan.in_int x) as [inside | outside]; [| exfalso; apply outside; lra].
  destruct (ps_atan_exists_1 x inside) as [v Hv].
  apply alternated_series_ineq.
  - apply Ratan_seq_decreasing; exact H01.
  - apply Ratan_seq_converging; exact H01.
  - exact Hv.
Qed.

Lemma atan_le_deg5 (x : R) : 0 < x < 1 -> atan x <= x - x^3/3 + x^5/5.
Proof.
  intros Hx. destruct (atan_series_bounds x 1 Hx) as [_ Hup].
  eapply Rle_trans; [exact Hup |].
  unfold sum_f_R0, tg_alt, Ratan_seq. simpl. apply Req_le. field.
Qed.

Lemma atan_ge_deg7 (x : R) : 0 < x < 1 -> x - x^3/3 + x^5/5 - x^7/7 <= atan x.
Proof.
  intros Hx. destruct (atan_series_bounds x 1 Hx) as [Hlow _].
  eapply Rle_trans; [| exact Hlow].
  unfold sum_f_R0, tg_alt, Ratan_seq. simpl. apply Req_le. field.
Qed.

Lemma atan_le_deg9 (x : R) :
  0 < x < 1 -> atan x <= x - x^3/3 + x^5/5 - x^7/7 + x^9/9.
Proof.
  intros Hx. destruct (atan_series_bounds x 2 Hx) as [_ Hup].
  eapply Rle_trans; [exact Hup |].
  unfold sum_f_R0, tg_alt, Ratan_seq. simpl. apply Req_le. field.
Qed.

Lemma PI_bounds : 31415 / 10000 < PI < 31421 / 10000.
Proof.
  pose proof (PI_2_3_7_ineq 1) as [Hlow Hup].
  unfold sum_f_R0, tg_alt, PI_2_3_7_tg, Ratan_seq in Hlow, Hup.
  simpl in Hlow, Hup.
  split; lra.
Qed.

(** Half of 50 degrees, in radians. *)
Lemma half_fov50_bounds :
  4363 / 10000 < (50 * (PI / 180)) / 2 < 4365 / 10000.
Proof. pose proof PI_bounds. lra. Qed.

Lemma atan_half_fov50_bounds :
  4113 / 10000 < atan ((50 * (PI / 180)) / 2) < 412 / 1000.
Proof.
  pose proof half_fov50_bounds as [Hlow Hup]. split.
  - apply Rlt_trans with (atan (4363 / 10000)); [| apply atan_increasing; exact Hlow].
    eapply Rlt_le_trans; [| apply atan_ge_deg7; lra]. lra.
  - apply Rlt_trans with (atan (4365 / 10000)); [apply atan_increasing; exact Hup |].
    eapply Rle_lt_trans; [apply atan_le_deg5; lra |]. lra.
Qed.

Lemma tan_half_fov50_lower : 466 / 1000 < tan ((50 * (PI / 180)) / 2).
Proof.
  pose proof half_fov50_bounds as [Hlow Hup]. pose proof PI_bounds as [P1 P2].
  destruct (Rlt_le_dec (466 / 1000) (tan ((50 * (PI / 180)) / 2))) as [Hlt | Hle];
    [exact Hlt | exfalso].
  assert (Ha : atan (tan ((50 * (PI / 180)) / 2)) <= atan (466 / 1000)).
  { destruct Hle as [Hle | Heq];
      [left; apply atan_increasing; exact Hle | right; rewrite Heq; reflexivity]. }
  rewrite atan_tan in Ha by (split; lra).
  assert (Hb : atan (466 / 1000) < 4363 / 10000).
  { eapply Rle_lt_trans; [apply atan_le_deg9; lra |]. lra. }
  lra.
Qed.

(** Below a half angle of one radian the arctangent of the half angle is
    smaller than the half angle, which is smaller than its tangent: for any
    depth other than 0 the code's height differs from the spec's. *)
Lemma ortho_height_neq_spec_ortho_height (depth fov : R) :
  depth <> 0 -> 0 < (fov * (PI / 180)) / 2 < 1 ->
  ortho_height depth fov <> spec_ortho_height depth fov.
Proof.
  intros Hdepth [Hpos Hone]. unfold ortho_height, spec_ortho_height.
  set (a := (fov * (PI / 180)) / 2) in *.
  pose proof PI_bounds as [P1 P2].
  assert (Hatan : atan a < a).
  { eapply Rle_lt_trans; [apply atan_le_deg5; lra |].
    assert (Hcube : 0 < a ^ 3) by (apply pow_lt; exact Hpos).
    assert (Hsq : a ^ 2 < 1) by nra.
    assert (H5 : a ^ 5 < a ^ 3).
    { replace (a ^ 5) with (a ^ 3 * a ^ 2) by ring.
      rewrite <- (Rmult_1_r (a ^ 3)) at 2.
      apply Rmult_lt_compat_l; assumption. }
    lra. }
  assert (Htan : a < tan a).
  { destruct (Rlt_le_dec a (tan a)) as [Hlt | Hle]; [exact Hlt | exfalso].
    assert (Hmono : atan (tan a) <= atan a).
    { destruct Hle as [Hle | Heq];
        [left; apply atan_increasing; exact Hle | right; rewrite Heq; reflexivity]. }
    rewrite atan_tan in Hmono by (split; lra). lra. }
  intros Heq.
  assert (Hsame : atan a = tan a).
  { apply (Rmult_eq_reg_l (depth * 2)); [exact Heq | lra]. }
  lra.
Qed.

(** At field of view 50 and depth 10 the code's height lies between 8.22
    and 8.24; the height of the spec is above 9.32. *)
Lemma ortho_height_fov50 :
  822 / 100 < ortho_height 10 50 < 824 / 100 /\
  932 / 100 < spec_ortho_height 10 50.
Proof.
  unfold ortho_height, spec_ortho_height.
  pose proof atan_half_fov50_bounds as [Hlow Hup].
  pose proof tan_half_fov50_lower as Htan.
  repeat split; lra.
Qed.

Lemma depth_of_camera0 : depth_of camera0 = 10.
Proof.
  unfold depth_of, dot, sub3. cbn. lra.
Qed.

(** C1, at the failing input.  Field of view 50 degrees, look-at depth 10,
    viewport 1500 by 1000.  The synchronization sets the extents to
    -width/2, width/2, height/2, -height/2 around zero with
    width = height * 1.5 and zoom 1, but its height is
    10 * 2 * atan(25 degrees in radians), between 8.22 and 8.24, and its
    width lies between 12.33 and 12.36; the tangent formula of the spec
    gives more than 9.32. *)
Theorem setOrthoCameraAspect_fov50 :
  let c := after setOrthoCameraAspect camera0 in
  let height := ortho_height 10 50 in
  let width := height * (1500 / 1000) in
  depth_of camera0 = 10 /\
  threeOrtho c
  = OrthographicCamera.mk (width / -2) (width / 2) (height / 2) (height / -2)
      (1 / 10) 1000 1 /\
  calls c = [UpdateProjectionMatrix] /\
  822 / 100 < height < 824 / 100 /\
  1233 / 100 < width < 1236 / 100 /\
  932 / 100 < spec_ortho_height 10 50 /\
  height <> spec_ortho_height 10 50.
Proof.
  intros c height width.
  destruct ortho_height_fov50 as [[Hlow Hup] Hspec]. fold height in Hlow, Hup.
  split; [exact depth_of_camera0 |]. split.
  - subst c. unfold after.
    rewrite (setOrthoCameraAspect_rendered camera0 world0
               {| renderer_getSize := Vector2.mk 1500 1000 |} eq_refl eq_refl).
    cbn [snd push_call set_threeOrtho threeOrtho].
    rewrite depth_of_camera0. reflexivity.
  - split; [reflexivity |]. subst width. repeat split; lra.
Qed.

End Arctangent.

(** * Further properties *)

(** ** The registry and the mode switch over whole runs *)

Lemma registry_lookup_Some (o f p : nat) (k : string) (m : NavigationMode.t) :
  (<["Plan" := PlanMode p]>
     (<["FirstPerson" := FirstPersonMode f]> (<["Orbit" := OrbitMode o]> ∅))
   : gmap string NavigationMode.t) !! k = Some m ->
  NavigationMode.id m = k /\
  (m = OrbitMode o \/ m = FirstPersonMode f \/ m = PlanMode p).
Proof.
  rewrite !lookup_insert_Some, lookup_empty.
  intros [[Hk Hm] | [_ [[Hk Hm] | [_ [[Hk Hm] | [_ Hnone]]]]]];
    [subst k m; auto .. | discriminate Hnone].
Qed.

Lemma registry_lookup_None (o f p : nat) (k : string) :
  (<["Plan" := PlanMode p]>
     (<["FirstPerson" := FirstPersonMode f]> (<["Orbit" := OrbitMode o]> ∅))
   : gmap string NavigationMode.t) !! k = None ->
  k ∉ mode_ids.
Proof.
  rewrite !lookup_insert_None. intros [[[_ Ho] Hf] Hp] Hin.
  unfold mode_ids in Hin. rewrite !elem_of_cons in Hin.
  destruct Hin as [-> | [-> | [-> | Hin]]]; try congruence.
  inversion Hin.
Qed.

Lemma registry_lookup_registered (o f p : nat) (k : string) :
  k ∈ mode_ids ->
  exists m : NavigationMode.t,
    (<["Plan" := PlanMode p]>
       (<["FirstPerson" := FirstPersonMode f]> (<["Orbit" := OrbitMode o]> ∅))
     : gmap string NavigationMode.t) !! k = Some m.
Proof.
  intros Hin. unfold mode_ids in Hin. rewrite !elem_of_cons in Hin.
  destruct Hin as [-> | [-> | [-> | Hin]]]; [eauto .. | inversion Hin].
Qed.

(** [unbound] and [bound] only look at [_mode], the registry and the
    allocation count. *)
Lemma bound_frame (c d : OrthoPerspectiveCamera) :
  _mode d = _mode c -> _navigationModes d = _navigationModes c ->
  allocated d = allocated c -> bound c -> bound d.
Proof.
  intros Hm Hr Ha (o & f & p & m & Hreg & Hmode & Hentry & Ho & Hf & Hp).
  exists o, f, p, m. rewrite Hm, Hr, Ha. auto 10.
Qed.

Lemma unbound_frame (c d : OrthoPerspectiveCamera) :
  _mode d = _mode c -> _navigationModes d = _navigationModes c ->
  unbound c -> unbound d.
Proof. intros Hm Hr [Hmode Hreg]. split; congruence. Qed.

Lemma bound_after_world_change (c : OrthoPerspectiveCamera) :
  bound (after onWorldChanged c).
Proof.
  exists (allocated c), (S (allocated c)), (S (S (allocated c))), (OrbitMode (allocated c)).
  split; [reflexivity |]. split; [reflexivity |]. split; [reflexivity |].
  change (allocated (after onWorldChanged c)) with (S (S (S (allocated c)))).
  lia.
Qed.

(** What [set] does on a bound camera, by the identifier it is given. *)
Lemma set_on_bound (c : OrthoPerspectiveCamera) (mode : NavModeID) :
  bound c ->
  (mode ∈ mode_ids /\
   exists m m' : NavigationMode.t,
     _mode c = Some m /\ NavigationMode.id m' = mode /\
     _navigationModes c !! mode = Some m' /\
     ((NavigationMode.id m = mode /\ m' = m /\ set mode c = (Normal tt, c)) \/
      (NavigationMode.id m <> mode /\
       set mode c
       = (Normal tt,
          push_call (ModeSet m' true None)
            (set__mode (Some m') (push_call (ModeSet m false None) c)))))) \/
  ((mode ∉ mode_ids) /\
   exists m : NavigationMode.t,
     _mode c = Some m /\
     set mode c = (Throw UnknownMode, push_call (ModeSet m false None) c)).
Proof.
  intros (o & f & p & m & Hreg & Hmode & Hentry & _).
  destruct (_navigationModes c !! mode) as [m' |] eqn:Hlook.
  - left.
    assert (Hm' := Hlook). rewrite Hreg in Hm'.
    apply registry_lookup_Some in Hm' as [Hid' _].
    split.
    { destruct (decide (mode ∈ mode_ids)) as [Hin | Hout]; [exact Hin | exfalso].
      unfold mode_ids in Hout. rewrite !elem_of_cons in Hout.
      rewrite Hreg in Hlook. rewrite !lookup_insert_Some, lookup_empty in Hlook.
      destruct Hlook as [[<- _] | [_ [[<- _] | [_ [[<- _] | [_ Hnone]]]]]];
        [apply Hout; auto .. | discriminate Hnone]. }
    exists m, m'. split; [exact Hmode |]. split; [exact Hid' |]. split; [reflexivity |].
    destruct (decide (NavigationMode.id m = mode)) as [Hid | Hid].
    + left. split; [exact Hid |]. split.
      * rewrite <- Hid in Hlook. congruence.
      * apply (set_same c m mode Hmode Hid).
    + right. split; [exact Hid |]. apply (set_switch c m m' mode Hmode Hid Hlook).
  - right.
    assert (Hout : mode ∉ mode_ids).
    { rewrite Hreg in Hlook. exact (registry_lookup_None o f p mode Hlook). }
    split; [exact Hout |]. exists m. split; [exact Hmode |].
    apply (set_unknown c m mode Hmode); [| exact Hlook].
    intros Hid. rewrite <- Hid in Hlook. congruence.
Qed.

Lemma bound_after_set (c : OrthoPerspectiveCamera) (mode : NavModeID) :
  bound c -> bound (after (set mode) c).
Proof.
  intros Hb. unfold after.
  destruct (set_on_bound c mode Hb)
    as [(_ & m & m' & Hmode & Hid' & Hlook & [(_ & _ & Hset) | (_ & Hset)]) |
        (_ & m & Hmode & Hset)];
    rewrite Hset; cbn [snd].
  - exact Hb.
  - destruct Hb as (o & f & p & m0 & Hreg & _ & _ & Ho & Hf & Hp).
    exists o, f, p, m'. cbn [push_call set__mode _mode _navigationModes allocated].
    rewrite Hid'. auto 10.
  - apply (bound_frame c); [reflexivity .. | exact Hb].
Qed.

Lemma after_get_mode_ret (c : OrthoPerspectiveCamera) :
  after (_ <- get_mode ;; ret tt) c = c.
Proof.
  unfold after, get_mode. unfold bind, read. destruct (_mode c); reflexivity.
Qed.

Lemma step_keeps_mode_fields {api : Box3Api} (op : Op) (c : OrthoPerspectiveCamera) :
  match op with SetMode _ | WorldChanged => False | _ => True end ->
  _mode (after (step op) c) = _mode c /\
  _navigationModes (after (step op) c) = _navigationModes c /\
  allocated (after (step op) c) = allocated c.
Proof.
  destruct op as [| mode | meshes offset | active | |]; intros Hop;
    try contradiction; cbn [step].
  - rewrite after_get_mode_ret. auto.
  - unfold after, fit, bind, read, modify. destruct (enabled c); auto.
  - unfold after. destruct active; cbn [setUserInput].
    + unfold enableUserInput, bind, read, modify.
      destruct (_userInputButtons c); auto.
    + rewrite disableUserInput_spec. auto.
  - unfold after, setOrthoCameraAspect, bind, read, modify.
    destruct (currentWorld c) as [w |]; [| auto].
    destruct (renderer w); auto.
Qed.

Lemma step_keeps_unbound_or_bound {api : Box3Api} (op : Op) (c : OrthoPerspectiveCamera) :
  unbound c \/ bound c ->
  unbound (after (step op) c) \/ bound (after (step op) c).
Proof.
  intros Hc.
  destruct op as [| mode | meshes offset | active | |] eqn:Eop;
    try (destruct (step_keeps_mode_fields op c) as (Hm & Hr & Ha);
         [rewrite Eop; exact I |];
         rewrite Eop in Hm, Hr, Ha;
         destruct Hc as [Hu | Hb];
         [left; apply (unbound_frame c); assumption
         | right; apply (bound_frame c); assumption]).
  - cbn [step]. destruct Hc as [[Hm Hr] | Hb].
    + left. unfold after. rewrite (set_null c mode Hm). split; assumption.
    + right. apply bound_after_set. exact Hb.
  - right. cbn [step]. apply bound_after_world_change.
Qed.

Lemma run_keeps_unbound_or_bound {api : Box3Api} (ops : list Op) (c : OrthoPerspectiveCamera) :
  unbound c \/ bound c -> unbound (run ops c) \/ bound (run ops c).
Proof.
  revert c. induction ops as [| op ops IH]; intros c Hc; [exact Hc |].
  cbn [run fold_left]. apply IH. apply step_keeps_unbound_or_bound. exact Hc.
Qed.

Lemma unbound_constructor (super : SimpleCamera.t) (innerWidth innerHeight : R) :
  unbound (constructor super innerWidth innerHeight).
Proof. split; reflexivity. Qed.

(** X1.  Whatever is called on a camera after its constructor, and in
    whatever order, it is in one of two states: no mode and an empty
    registry, or a registry with exactly the entries Orbit, FirstPerson and
    Plan, each holding an instance with that identifier, and [_mode] one of
    those entries. *)
Theorem run_unbound_or_bound {api : Box3Api}
    (super : SimpleCamera.t) (innerWidth innerHeight : R) (ops : list Op) :
  let c := run ops (constructor super innerWidth innerHeight) in
  unbound c \/ bound c.
Proof.
  cbn zeta. apply run_keeps_unbound_or_bound. left. apply unbound_constructor.
Qed.

Lemma completion_eq {A} (m : M A) (c d : OrthoPerspectiveCamera) (r : Completion A) :
  m c = (r, d) -> completion m c = r /\ after m c = d.
Proof. intros E. unfold completion, after. rewrite E. auto. Qed.

Lemma set_reaches_registered_mode_aux (c : OrthoPerspectiveCamera) (mode : NavModeID) :
  bound c -> mode ∈ mode_ids ->
  exists m : NavigationMode.t,
    _mode (after (set mode) c) = Some m /\ NavigationMode.id m = mode.
Proof.
  intros Hb Hin.
  destruct (set_on_bound c mode Hb)
    as [(_ & m & m' & Hmode & Hid' & _ & [(Hid & _ & Hset) | (_ & Hset)]) | (Hout & _)];
    [| | contradiction];
    destruct (completion_eq _ _ _ _ Hset) as [_ Hafter]; rewrite Hafter.
  - exists m. auto.
  - exists m'. auto.
Qed.

(** X2.  On a bound camera, [set(id)] with any of the three registered
    identifiers completes normally and leaves a bound camera whose [mode]
    getter returns a mode with that identifier: every mode can be reached
    from every mode. *)
Theorem set_reaches_registered_mode (c : OrthoPerspectiveCamera) (mode : NavModeID) :
  bound c -> mode ∈ mode_ids ->
  let c' := after (set mode) c in
  completion (set mode) c = Normal tt /\
  bound c' /\
  exists m : NavigationMode.t,
    get_mode c' = (Normal m, c') /\ NavigationMode.id m = mode.
Proof.
  intros Hb Hin c'. subst c'.
  split; [| split; [apply bound_after_set; exact Hb |]].
  - destruct (set_on_bound c mode Hb)
      as [(_ & m & m' & _ & _ & _ & [(_ & _ & Hset) | (_ & Hset)]) | (Hout & _)];
      [apply (completion_eq _ _ _ _ Hset) .. | contradiction].
  - destruct (set_on_bound c mode Hb)
      as [(_ & m & m' & Hmode & Hid' & _ & [(Hid & _ & Hset) | (_ & Hset)]) | (Hout & _)];
      [| | contradiction];
      destruct (completion_eq _ _ _ _ Hset) as [_ Hafter]; rewrite Hafter.
    + exists m. split; [apply get_mode_object; exact Hmode | exact Hid].
    + exists m'. split; [apply get_mode_object; reflexivity | exact Hid'].
Qed.

Lemma bound_camera1 : bound camera1.
Proof. apply bound_after_world_change. Qed.

Lemma In_mode_ids_Plan : "Plan" ∈ mode_ids.
Proof. unfold mode_ids. rewrite !elem_of_cons. auto. Qed.

Lemma set_reaches_registered_mode_witness :
  completion (set "Plan") camera1 = Normal tt /\
  _mode (after (set "Plan") camera1) = Some (PlanMode 2).
Proof.
  destruct (set_reaches_registered_mode camera1 "Plan" bound_camera1 In_mode_ids_Plan)
    as (Hok & _ & _).
  split; [exact Hok | reflexivity].
Defined.

(** X3.  On a bound camera [set(id)] never throws the "not initialized"
    error, and it throws the "unknown mode" error exactly when [id] is none
    of Orbit, FirstPerson and Plan. *)
Theorem set_throws_iff_unregistered (c : OrthoPerspectiveCamera) (mode : NavModeID) :
  bound c ->
  completion (set mode) c <> Throw NotInitialized /\
  (completion (set mode) c = Throw UnknownMode <-> mode ∉ mode_ids).
Proof.
  intros Hb.
  destruct (set_on_bound c mode Hb)
    as [(Hin & m & m' & _ & _ & _ & [(_ & _ & Hset) | (_ & Hset)]) | (Hout & m & _ & Hset)];
    destruct (completion_eq _ _ _ _ Hset) as [Hcompl _]; rewrite Hcompl.
  - split; [discriminate |]. split; [discriminate | contradiction].
  - split; [discriminate |]. split; [discriminate | contradiction].
  - split; [intros Heq; inversion Heq |]. split; auto.
Qed.

Lemma set_throws_iff_unregistered_witness :
  completion (set "Plan") camera1 <> Throw NotInitialized /\
  (completion (set "Plan") camera1 = Throw UnknownMode <-> "Plan" ∉ mode_ids).
Proof. exact (set_throws_iff_unregistered camera1 "Plan" bound_camera1). Defined.

(** X4.  Switching is idempotent: on a bound camera, a second [set(id)]
    with the same registered identifier completes normally without a single
    call and leaves the camera exactly as the first one left it. *)
Theorem set_twice (c : OrthoPerspectiveCamera) (mode : NavModeID) :
  bound c -> mode ∈ mode_ids ->
  set mode (after (set mode) c) = (Normal tt, after (set mode) c).
Proof.
  intros Hb Hin.
  destruct (set_reaches_registered_mode_aux c mode Hb Hin) as (m & Hmode & Hid).
  apply (set_same _ m mode Hmode Hid).
Qed.

Lemma set_twice_witness :
  set "Plan" (after (set "Plan") camera1) = (Normal tt, after (set "Plan") camera1).
Proof. exact (set_twice camera1 "Plan" bound_camera1 In_mode_ids_Plan). Defined.

(** X5.  A switch on a bound camera to a registered identifier other than
    the current one makes exactly two calls, in this order: [set(false)] on
    the mode that was current, then [set(true)] on the registry entry of the
    new identifier, which becomes the current mode. *)
Theorem set_switch_order
    (c : OrthoPerspectiveCamera) (m : NavigationMode.t) (mode : NavModeID) :
  bound c -> _mode c = Some m -> mode ∈ mode_ids -> NavigationMode.id m <> mode ->
  exists m' : NavigationMode.t,
    _navigationModes c !! mode = Some m' /\
    _mode (after (set mode) c) = Some m' /\
    calls (after (set mode) c)
    = (calls c ++ [ModeSet m false None; ModeSet m' true None])%list.
Proof.
  intros Hb Hmode Hin Hid.
  destruct (set_on_bound c mode Hb)
    as [(_ & m0 & m' & Hmode0 & _ & Hlook & [(Hid0 & _) | (_ & Hset)]) | (Hout & _)];
    [| | contradiction];
    assert (m0 = m) by congruence; subst m0; [contradiction |].
  exists m'. destruct (completion_eq _ _ _ _ Hset) as [_ Hafter]. rewrite Hafter.
  split; [exact Hlook |]. split; [reflexivity |].
  cbn [push_call set__mode calls]. rewrite <- app_assoc. reflexivity.
Qed.

Lemma set_switch_order_witness :
  exists m' : NavigationMode.t,
    _navigationModes camera1 !! "Plan" = Some m' /\
    _mode (after (set "Plan") camera1) = Some m' /\
    calls (after (set "Plan") camera1)
    = (calls camera1 ++ [ModeSet (OrbitMode 0) false None; ModeSet m' true None])%list.
Proof.
  apply (set_switch_order camera1 (OrbitMode 0) "Plan" bound_camera1);
    [reflexivity | exact In_mode_ids_Plan | discriminate].
Defined.

Lemma mode_calls_app (l l' : list Call) :
  mode_calls (l ++ l') = (mode_calls l ++ mode_calls l')%list.
Proof.
  induction l as [| k l IH]; [reflexivity |].
  destruct k; cbn [mode_calls app]; rewrite IH; reflexivity.
Qed.

Lemma step_keeps_mode_calls {api : Box3Api} (op : Op) (c : OrthoPerspectiveCamera) :
  match op with SetMode _ | WorldChanged => False | _ => True end ->
  mode_calls (calls (after (step op) c)) = mode_calls (calls c).
Proof.
  destruct op as [| mode | meshes offset | active | |]; intros Hop;
    try contradiction; cbn [step].
  - rewrite after_get_mode_ret. reflexivity.
  - unfold after. destruct (enabled c) eqn:E.
    + rewrite (fit_enabled c meshes offset E). cbn [snd push_call calls].
      rewrite mode_calls_app. apply app_nil_r.
    + rewrite (fit_disabled c meshes offset E). reflexivity.
  - unfold after. destruct active; cbn [setUserInput].
    + unfold enableUserInput, bind, read, modify.
      destruct (_userInputButtons c); reflexivity.
    + rewrite disableUserInput_spec. reflexivity.
  - unfold after. destruct (currentWorld c) as [w |] eqn:E.
    + destruct (renderer w) as [r |] eqn:Er.
      * rewrite (setOrthoCameraAspect_rendered c w r E Er).
        cbn [snd push_call calls set_threeOrtho].
        rewrite mode_calls_app. apply app_nil_r.
      * rewrite (setOrthoCameraAspect_no_renderer c w E Er). reflexivity.
    + rewrite (setOrthoCameraAspect_no_world c E). reflexivity.
Qed.

Lemma step_keeps_current_active {api : Box3Api} (op : Op) (c : OrthoPerspectiveCamera) :
  match op with SetMode mode => mode ∈ mode_ids | _ => True end ->
  unbound c \/ bound c -> current_is_active c ->
  current_is_active (after (step op) c).
Proof.
  intros Hop Hc Hact.
  destruct op as [| mode | meshes offset | active | |] eqn:Eop;
    try (unfold current_is_active;
         destruct (step_keeps_mode_fields op c) as (Hm & _ & _);
         [rewrite Eop; exact I |];
         rewrite Eop in Hm; rewrite Hm;
         rewrite <- Eop, (step_keeps_mode_calls op c) by (rewrite Eop; exact I);
         exact Hact).
  - cbn [step]. destruct Hc as [[Hm _] | Hb].
    + unfold after. rewrite (set_null c mode Hm). exact Hact.
    + destruct (set_on_bound c mode Hb)
        as [(_ & m & m' & Hmode & _ & _ & [(_ & _ & Hset) | (_ & Hset)]) | (Hout & _)];
        [| | contradiction];
        destruct (completion_eq _ _ _ _ Hset) as [_ Hafter]; rewrite Hafter.
      * exact Hact.
      * unfold current_is_active. cbn [push_call set__mode _mode calls].
        rewrite mode_calls_app. cbn [mode_calls]. apply last_snoc.
  - cbn [step]. unfold current_is_active.
    change (_mode (after onWorldChanged c)) with (Some (OrbitMode (allocated c))).
    change (calls (after onWorldChanged c))
      with (calls c ++ [ModeSet (OrbitMode (allocated c)) true
                          (Some {| preventTargetAdjustment := true |})])%list.
    rewrite mode_calls_app. cbn [mode_calls]. apply last_snoc.
Qed.

(** X6.  As long as [set] is only given registered identifiers, the current
    mode is never left switched off: after any sequence of calls from the
    constructor on, the last call made on a mode is [set(true, ...)] on the
    current mode, and no call at all has been made on a mode while there is
    no current mode. *)
Theorem run_current_is_active {api : Box3Api}
    (super : SimpleCamera.t) (innerWidth innerHeight : R) (ops : list Op) :
  registered_ids_only ops = true ->
  current_is_active (run ops (constructor super innerWidth innerHeight)).
Proof.
  assert (Hstart : (unbound (constructor super innerWidth innerHeight)
                    \/ bound (constructor super innerWidth innerHeight))
                   /\ current_is_active (constructor super innerWidth innerHeight)).
  { split; [left; split; reflexivity | reflexivity]. }
  revert Hstart. generalize (constructor super innerWidth innerHeight).
  induction ops as [| op ops IH]; intros c [Hc Hact] Hops; [exact Hact |].
  unfold registered_ids_only in Hops. cbn [forallb] in Hops.
  apply andb_prop in Hops as [Hop Hops].
  cbn [run fold_left]. apply IH; [| exact Hops].
  split; [apply step_keeps_unbound_or_bound; exact Hc |].
  apply step_keeps_current_active; [| exact Hc | exact Hact].
  destruct op; try exact I. apply bool_decide_eq_true in Hop. exact Hop.
Qed.

Lemma run_current_is_active_witness :
  current_is_active
    (run (api := three_js)
       [SetMode "Orbit"; WorldChanged; Fit [meshA] 2; SetMode "Plan"; AspectUpdated;
        SetMode "Plan"; SetMode "FirstPerson"]
       camera0).
Proof.
  apply (run_current_is_active (api := three_js)
           (SimpleCamera.mk true controls0 persp50 (Some world0)) 1500 1000).
  reflexivity.
Defined.





(** ** Sequences of [setUserInput] *)

Lemma bindings_after_disable (c : OrthoPerspectiveCamera) :
  _userInputButtons (after (setUserInput false) c)
  = Some (CameraControls.mouseButtons (controls c)) /\
  CameraControls.mouseButtons (controls (after (setUserInput false) c)) = no_bindings.
Proof.
  unfold after. cbn [setUserInput]. rewrite disableUserInput_spec. split; reflexivity.
Qed.

Lemma bindings_after_enable (c : OrthoPerspectiveCamera) :
  _userInputButtons (after (setUserInput true) c) = _userInputButtons c /\
  CameraControls.mouseButtons (controls (after (setUserInput true) c))
  = match _userInputButtons c with
    | Some b => b
    | None => CameraControls.mouseButtons (controls c)
    end.
Proof.
  unfold after. cbn [setUserInput]. destruct (_userInputButtons c) as [b |] eqn:E.
  - rewrite (enableUserInput_captured c b E). cbn [snd set_mouseButtons _userInputButtons].
    split; [exact E | reflexivity].
  - rewrite (enableUserInput_empty c E). cbn [snd]. split; [exact E | reflexivity].
Qed.

(** What a run of [setUserInput] calls can make of bindings [b]. *)
Lemma setUserInputs_invariant (b : MouseButtons.t) (flags : list bool) (c : OrthoPerspectiveCamera) :
  let ok (d : OrthoPerspectiveCamera) :=
    (_userInputButtons d = None /\ CameraControls.mouseButtons (controls d) = b) \/
    (_userInputButtons d = Some b /\
     (CameraControls.mouseButtons (controls d) = b \/
      CameraControls.mouseButtons (controls d) = no_bindings)) \/
    (_userInputButtons d = Some no_bindings /\
     CameraControls.mouseButtons (controls d) = no_bindings) in
  ok c -> ok (setUserInputs flags c).
Proof.
  intros ok. revert c. induction flags as [| active flags IH]; intros c Hc; [exact Hc |].
  cbn [setUserInputs fold_left]. apply IH. unfold ok in *.
  destruct active.
  - destruct (bindings_after_enable c) as [Hs Hb]. rewrite Hs, Hb.
    destruct Hc as [[Hsnap Hbind] | [[Hsnap Hbind] | [Hsnap Hbind]]]; rewrite Hsnap.
    + left. split; [reflexivity | exact Hbind].
    + right. left. split; [reflexivity | left; reflexivity].
    + right. right. split; reflexivity.
  - destruct (bindings_after_disable c) as [Hs Hb]. rewrite Hs, Hb.
    destruct Hc as [[Hsnap Hbind] | [[Hsnap [Hbind | Hbind]] | [Hsnap Hbind]]]; rewrite Hbind.
    + right. left. split; [reflexivity | right; reflexivity].
    + right. left. split; [reflexivity | right; reflexivity].
    + right. right. split; reflexivity.
    + right. right. split; reflexivity.
Qed.

(** X8.  Starting from an empty snapshot, no sequence of [setUserInput]
    calls ever leaves the controller with bindings other than the ones it
    started with or all zeros. *)
Theorem setUserInputs_original_or_zero (flags : list bool) (c : OrthoPerspectiveCamera) :
  _userInputButtons c = None ->
  let bindings := CameraControls.mouseButtons (controls (setUserInputs flags c)) in
  bindings = CameraControls.mouseButtons (controls c) \/ bindings = no_bindings.
Proof.
  intros Hsnap bindings. subst bindings.
  destruct (setUserInputs_invariant (CameraControls.mouseButtons (controls c)) flags c)
    as [[_ H] | [[_ [H | H]] | [_ H]]]; auto.
Qed.

Lemma setUserInputs_original_or_zero_witness :
  CameraControls.mouseButtons
    (controls (setUserInputs [true; false; true; false; false] camera0))
  = bindings_1248 \/
  CameraControls.mouseButtons
    (controls (setUserInputs [true; false; true; false; false] camera0))
  = no_bindings.
Proof.
  apply (setUserInputs_original_or_zero [true; false; true; false; false] camera0).
  reflexivity.
Defined.

(** X9.  After two [setUserInput(false)] in a row the bindings that were in
    effect are gone for good: whatever [setUserInput] calls follow, the four
    bindings stay 0. *)
Theorem setUserInputs_after_double_disable (flags : list bool) (c : OrthoPerspectiveCamera) :
  CameraControls.mouseButtons
    (controls (setUserInputs flags
                 (after (setUserInput false) (after (setUserInput false) c))))
  = no_bindings.
Proof.
  set (d := after (setUserInput false) (after (setUserInput false) c)).
  assert (Hd : _userInputButtons d = Some no_bindings /\
               CameraControls.mouseButtons (controls d) = no_bindings).
  { subst d. destruct (bindings_after_disable (after (setUserInput false) c)) as [Hs Hb].
    destruct (bindings_after_disable c) as [_ Hb0].
    rewrite Hs, Hb, Hb0. auto. }
  destruct Hd as [Hs Hb].
  destruct (setUserInputs_invariant no_bindings flags d)
    as [[_ H] | [[_ [H | H]] | [_ H]]]; auto.
Qed.

(** X10.  [setUserInput] never throws and touches nothing but the four
    bindings and their snapshot: modes, registry, both cameras, the
    [enabled] flag, the world, the controller's target and the calls made so
    far are as before; and a snapshot, once taken, is never emptied. *)
Theorem setUserInput_frame (active : bool) (c : OrthoPerspectiveCamera) :
  let c' := after (setUserInput active) c in
  completion (setUserInput active) c = Normal tt /\
  _mode c' = _mode c /\ _navigationModes c' = _navigationModes c /\
  threeOrtho c' = threeOrtho c /\ threePersp c' = threePersp c /\
  enabled c' = enabled c /\ currentWorld c' = currentWorld c /\
  CameraControls.getTarget (controls c') = CameraControls.getTarget (controls c) /\
  calls c' = calls c /\
  (is_Some (_userInputButtons c) -> is_Some (_userInputButtons c')).
Proof.
  intros c'. subst c'. unfold completion, after. destruct active; cbn [setUserInput].
  - destruct (_userInputButtons c) as [b |] eqn:E.
    + rewrite (enableUserInput_captured c b E). cbn [fst snd].
      repeat (split; [reflexivity |]). intros _.
      cbn [set_mouseButtons _userInputButtons]. rewrite E. eexists; reflexivity.
    + rewrite (enableUserInput_empty c E). cbn [fst snd].
      repeat (split; [reflexivity |]). rewrite E. intros Hsome. exact Hsome.
  - rewrite disableUserInput_spec. cbn [fst snd].
    repeat (split; [reflexivity |]). intros _. eexists; reflexivity.
Qed.

Lemma setUserInput_frame_witness :
  is_Some (_userInputButtons
             (after (setUserInput true) (after (setUserInput false) camera0))).
Proof.
  destruct (setUserInput_frame true (after (setUserInput false) camera0))
    as (_ & _ & _ & _ & _ & _ & _ & _ & _ & Hkeep).
  apply Hkeep. exists bindings_1248. reflexivity.
Defined.

(** ** The box of [fit], axis by axis *)

Ltac fit_loop_simpl :=
  cbn [fst snd Vector3.x Vector3.y Vector3.z
       Vector3.set_x Vector3.set_y Vector3.set_z].

Ltac fit_loop_cases :=
  intros [[a b c] [d e f]] mesh; unfold fit_loop_body; fit_loop_simpl;
  repeat match goal with
         | |- context [if ?t then _ else _] =>
             lazymatch t with
             | context [if _ then _ else _] => fail
             | _ => destruct t; fit_loop_simpl
             end
         end; reflexivity.

Lemma fit_loop_body_min_x : forall acc mesh,
  Vector3.x (fst (fit_loop_body acc mesh))
  = if JS.lt (Vector3.x (Box3.min (setFromObject mesh))) (Vector3.x (fst acc))
    then Vector3.x (Box3.min (setFromObject mesh)) else Vector3.x (fst acc).
Proof. fit_loop_cases. Qed.

Lemma fit_loop_body_min_y : forall acc mesh,
  Vector3.y (fst (fit_loop_body acc mesh))
  = if JS.lt (Vector3.y (Box3.min (setFromObject mesh))) (Vector3.y (fst acc))
    then Vector3.y (Box3.min (setFromObject mesh)) else Vector3.y (fst acc).
Proof. fit_loop_cases. Qed.

Lemma fit_loop_body_min_z : forall acc mesh,
  Vector3.z (fst (fit_loop_body acc mesh))
  = if JS.lt (Vector3.z (Box3.min (setFromObject mesh))) (Vector3.z (fst acc))
    then Vector3.z (Box3.min (setFromObject mesh)) else Vector3.z (fst acc).
Proof. fit_loop_cases. Qed.

Lemma fit_loop_body_max_x : forall acc mesh,
  Vector3.x (snd (fit_loop_body acc mesh))
  = if JS.gt (Vector3.x (Box3.max (setFromObject mesh))) (Vector3.x (snd acc))
    then Vector3.x (Box3.max (setFromObject mesh)) else Vector3.x (snd acc).
Proof. fit_loop_cases. Qed.

Lemma fit_loop_body_max_y : forall acc mesh,
  Vector3.y (snd (fit_loop_body acc mesh))
  = if JS.gt (Vector3.y (Box3.max (setFromObject mesh))) (Vector3.y (snd acc))
    then Vector3.y (Box3.max (setFromObject mesh)) else Vector3.y (snd acc).
Proof. fit_loop_cases. Qed.

Lemma fit_loop_body_max_z : forall acc mesh,
  Vector3.z (snd (fit_loop_body acc mesh))
  = if JS.gt (Vector3.z (Box3.max (setFromObject mesh))) (Vector3.z (snd acc))
    then Vector3.z (Box3.max (setFromObject mesh)) else Vector3.z (snd acc).
Proof. fit_loop_cases. Qed.

Lemma fit_box_fold (meshes : list Mesh) :
  fit_box meshes
  = Box3.mk
      (fst (fold_left fit_loop_body meshes
              (v3 JS.MAX_VALUE JS.MAX_VALUE JS.MAX_VALUE,
               v3 JS.MIN_VALUE JS.MIN_VALUE JS.MIN_VALUE)))
      (snd (fold_left fit_loop_body meshes
              (v3 JS.MAX_VALUE JS.MAX_VALUE JS.MAX_VALUE,
               v3 JS.MIN_VALUE JS.MIN_VALUE JS.MIN_VALUE))).
Proof.
  unfold fit_box, v3.
  destruct (fold_left fit_loop_body meshes _) as [min max]. reflexivity.
Qed.

(** A coordinate that the loop updates by [pick] keeps a property that
    holds of the start value and of every candidate. *)
Lemma fold_fit_loop_coordinate
    (coord : Vector3.t float * Vector3.t float -> float)
    (candidate : Mesh -> float) (test : float -> float -> bool)
    (P : list Mesh -> float -> Prop) :
  (forall acc mesh,
      coord (fit_loop_body acc mesh)
      = if test (candidate mesh) (coord acc) then candidate mesh else coord acc) ->
  (forall seen mesh v, P seen v -> P (seen ++ [mesh])%list v) ->
  (forall seen mesh v,
      P seen v -> test (candidate mesh) v = true -> P (seen ++ [mesh])%list (candidate mesh)) ->
  forall (meshes seen : list Mesh) (acc : Vector3.t float * Vector3.t float),
    P seen (coord acc) ->
    P (seen ++ meshes)%list (coord (fold_left fit_loop_body meshes acc)).
Proof.
  intros Hstep Hkeep Hpick meshes.
  induction meshes as [| mesh meshes IH]; intros seen acc Hacc.
  - rewrite app_nil_r. exact Hacc.
  - cbn [fold_left].
    replace (seen ++ mesh :: meshes)%list with ((seen ++ [mesh]) ++ meshes)%list
      by (rewrite <- app_assoc; reflexivity).
    apply IH. rewrite Hstep.
    destruct (test (candidate mesh) (coord acc)) eqn:Et.
    + apply (Hpick seen mesh (coord acc)); assumption.
    + apply Hkeep. exact Hacc.
Qed.

Lemma fold_fit_loop_stuck
    (coord : Vector3.t float * Vector3.t float -> float)
    (candidate : Mesh -> float) (test : float -> float -> bool) (init : float) :
  (forall acc mesh,
      coord (fit_loop_body acc mesh)
      = if test (candidate mesh) (coord acc) then candidate mesh else coord acc) ->
  forall (meshes : list Mesh) (acc : Vector3.t float * Vector3.t float),
    coord acc = init ->
    Forall (fun mesh => test (candidate mesh) init = false) meshes ->
    coord (fold_left fit_loop_body meshes acc) = init.
Proof.
  intros Hstep meshes. induction meshes as [| mesh meshes IH]; intros acc Hacc Hall.
  - exact Hacc.
  - cbn [fold_left]. apply Forall_cons in Hall as [Hmesh Hall].
    apply IH; [| exact Hall]. rewrite Hstep, Hacc, Hmesh. reflexivity.
Qed.

(** X11.  [fit] never makes up a coordinate: each coordinate of the
    minimum of its box is [Number.MAX_VALUE] or that coordinate of the
    minimum of some mesh's box, and each coordinate of the maximum is
    [Number.MIN_VALUE] or that coordinate of the maximum of some mesh's
    box. *)
Theorem fit_box_selects (meshes : list Mesh) :
  let from (v init : float) (candidate : Mesh -> float) :=
    v = init \/ In v (map candidate meshes) in
  let box := fit_box meshes in
  from (Vector3.x (Box3.min box)) JS.MAX_VALUE
       (fun mesh => Vector3.x (Box3.min (setFromObject mesh))) /\
  from (Vector3.y (Box3.min box)) JS.MAX_VALUE
       (fun mesh => Vector3.y (Box3.min (setFromObject mesh))) /\
  from (Vector3.z (Box3.min box)) JS.MAX_VALUE
       (fun mesh => Vector3.z (Box3.min (setFromObject mesh))) /\
  from (Vector3.x (Box3.max box)) JS.MIN_VALUE
       (fun mesh => Vector3.x (Box3.max (setFromObject mesh))) /\
  from (Vector3.y (Box3.max box)) JS.MIN_VALUE
       (fun mesh => Vector3.y (Box3.max (setFromObject mesh))) /\
  from (Vector3.z (Box3.max box)) JS.MIN_VALUE
       (fun mesh => Vector3.z (Box3.max (setFromObject mesh))).
Proof.
  intros from box. subst box. rewrite fit_box_fold. cbn [Box3.min Box3.max].
  assert (Hsel : forall (coord : Vector3.t float * Vector3.t float -> float)
                        (candidate : Mesh -> float) (test : float -> float -> bool)
                        (init : float),
             (forall acc mesh,
                 coord (fit_loop_body acc mesh)
                 = if test (candidate mesh) (coord acc) then candidate mesh else coord acc) ->
             forall acc, coord acc = init ->
                         from (coord (fold_left fit_loop_body meshes acc)) init candidate).
  { intros coord candidate test init Hstep acc Hacc.
    apply (fold_fit_loop_coordinate coord candidate test
             (fun seen v => v = init \/ In v (map candidate seen)) Hstep)
      with (seen := []) (meshes := meshes) (acc := acc).
    - intros seen mesh v [Hv | Hv]; [left; exact Hv | right].
      rewrite map_app. apply in_or_app. left. exact Hv.
    - intros seen mesh v _ _. right. rewrite map_app. apply in_or_app. right.
      left. reflexivity.
    - left. exact Hacc. }
  repeat split.
  - apply (Hsel (fun acc : Vector3.t float * Vector3.t float => Vector3.x (fst acc)) _ JS.lt); [apply fit_loop_body_min_x | reflexivity].
  - apply (Hsel (fun acc : Vector3.t float * Vector3.t float => Vector3.y (fst acc)) _ JS.lt); [apply fit_loop_body_min_y | reflexivity].
  - apply (Hsel (fun acc : Vector3.t float * Vector3.t float => Vector3.z (fst acc)) _ JS.lt); [apply fit_loop_body_min_z | reflexivity].
  - apply (Hsel (fun acc : Vector3.t float * Vector3.t float => Vector3.x (snd acc)) _ JS.gt); [apply fit_loop_body_max_x | reflexivity].
  - apply (Hsel (fun acc : Vector3.t float * Vector3.t float => Vector3.y (snd acc)) _ JS.gt); [apply fit_loop_body_max_y | reflexivity].
  - apply (Hsel (fun acc : Vector3.t float * Vector3.t float => Vector3.z (snd acc)) _ JS.gt); [apply fit_loop_body_max_z | reflexivity].
Qed.

(** X12.  On each axis separately: when no mesh's box maximum is greater
    than [Number.MIN_VALUE] on that axis (all of them zero or negative, for
    one), the maximum of the box of [fit] on that axis is
    [Number.MIN_VALUE], whatever the meshes are. *)
Theorem fit_box_max_stuck_at_MIN_VALUE (meshes : list Mesh) :
  (Forall (fun mesh => JS.gt (Vector3.x (Box3.max (setFromObject mesh))) JS.MIN_VALUE = false)
          meshes ->
   Vector3.x (Box3.max (fit_box meshes)) = JS.MIN_VALUE) /\
  (Forall (fun mesh => JS.gt (Vector3.y (Box3.max (setFromObject mesh))) JS.MIN_VALUE = false)
          meshes ->
   Vector3.y (Box3.max (fit_box meshes)) = JS.MIN_VALUE) /\
  (Forall (fun mesh => JS.gt (Vector3.z (Box3.max (setFromObject mesh))) JS.MIN_VALUE = false)
          meshes ->
   Vector3.z (Box3.max (fit_box meshes)) = JS.MIN_VALUE).
Proof.
  rewrite fit_box_fold. cbn [Box3.max]. repeat split; intros Hall.
  - apply (fold_fit_loop_stuck (fun acc : Vector3.t float * Vector3.t float => Vector3.x (snd acc)) _ JS.gt JS.MIN_VALUE
             fit_loop_body_max_x); [reflexivity | exact Hall].
  - apply (fold_fit_loop_stuck (fun acc : Vector3.t float * Vector3.t float => Vector3.y (snd acc)) _ JS.gt JS.MIN_VALUE
             fit_loop_body_max_y); [reflexivity | exact Hall].
  - apply (fold_fit_loop_stuck (fun acc : Vector3.t float * Vector3.t float => Vector3.z (snd acc)) _ JS.gt JS.MIN_VALUE
             fit_loop_body_max_z); [reflexivity | exact Hall].
Qed.

Lemma fit_box_max_stuck_at_MIN_VALUE_witness :
  Box3.max (fit_box [meshNeg; meshNeg])
  = v3 JS.MIN_VALUE JS.MIN_VALUE JS.MIN_VALUE.
Proof.
  destruct (fit_box_max_stuck_at_MIN_VALUE [meshNeg; meshNeg]) as (Hx & Hy & Hz).
  assert (Hall : forall coord : Vector3.t float -> float,
             coord (v3 (-1) (-1) (-1)) = (-1)%float ->
             Forall (fun mesh => JS.gt (coord (Box3.max (setFromObject mesh))) JS.MIN_VALUE = false)
                    [meshNeg; meshNeg]).
  { intros coord Hcoord. repeat constructor; cbn [meshNeg setFromObject Box3.max];
      rewrite Hcoord; reflexivity. }
  specialize (Hx (Hall Vector3.x eq_refl)).
  specialize (Hy (Hall Vector3.y eq_refl)).
  specialize (Hz (Hall Vector3.z eq_refl)).
  destruct (Box3.max (fit_box [meshNeg; meshNeg])) as [a b c].
  cbn [Vector3.x Vector3.y Vector3.z] in Hx, Hy, Hz. subst a b c. reflexivity.
Defined.

(** X13.  For a single mesh whose box minimum is below [Number.MAX_VALUE]
    and whose box maximum is above [Number.MIN_VALUE] on every axis, the box
    of [fit] is exactly the box of the mesh. *)
Theorem fit_box_single (mesh : Mesh) :
  let box := setFromObject mesh in
  JS.lt (Vector3.x (Box3.min box)) JS.MAX_VALUE = true ->
  JS.lt (Vector3.y (Box3.min box)) JS.MAX_VALUE = true ->
  JS.lt (Vector3.z (Box3.min box)) JS.MAX_VALUE = true ->
  JS.gt (Vector3.x (Box3.max box)) JS.MIN_VALUE = true ->
  JS.gt (Vector3.y (Box3.max box)) JS.MIN_VALUE = true ->
  JS.gt (Vector3.z (Box3.max box)) JS.MIN_VALUE = true ->
  fit_box [mesh] = box.
Proof.
  destruct mesh as [[[a b c] [d e f]]]. cbn [setFromObject Box3.min Box3.max
    Vector3.x Vector3.y Vector3.z]. intros Ha Hb Hc Hd He Hf.
  unfold fit_box, fit_loop_body. cbn [fold_left setFromObject Box3.min Box3.max].
  fit_loop_simpl. rewrite Ha. fit_loop_simpl. rewrite Hb. fit_loop_simpl.
  rewrite Hc. fit_loop_simpl. rewrite Hd. fit_loop_simpl. rewrite He.
  fit_loop_simpl. rewrite Hf. reflexivity.
Qed.

Lemma fit_box_single_witness : fit_box [meshB] = Box3.mk (v3 0 0 0) (v3 3 3 3).
Proof. apply (fit_box_single meshB); reflexivity. Defined.

(** ** The two frusta *)

Section Frusta.

Local Open Scope R_scope.





(** X16.  Without a world, or with a world that has no renderer, the
    synchronization does nothing at all: the frustum of the constructor
    stays and [updateProjectionMatrix()] is not called. *)
Theorem setOrthoCameraAspect_skipped (c : OrthoPerspectiveCamera) :
  currentWorld c = None \/
  (exists w : World, currentWorld c = Some w /\ renderer w = None) ->
  setOrthoCameraAspect c = (Normal tt, c).
Proof.
  intros [E | (w & E & Er)].
  - apply setOrthoCameraAspect_no_world. exact E.
  - apply (setOrthoCameraAspect_no_renderer c w); assumption.
Qed.

Lemma setOrthoCameraAspect_skipped_witness :
  let c := constructor (SimpleCamera.mk true controls0 persp50 None) 1500 1000 in
  setOrthoCameraAspect c = (Normal tt, c).
Proof.
  intros c. apply (setOrthoCameraAspect_skipped c). left. reflexivity.
Defined.

(** X17.  The synchronization is idempotent on the frustum: running it a
    second time, with nothing else in between, leaves the orthographic
    camera exactly as the first run left it. *)
Theorem setOrthoCameraAspect_twice (c : OrthoPerspectiveCamera) :
  threeOrtho (after setOrthoCameraAspect (after setOrthoCameraAspect c))
  = threeOrtho (after setOrthoCameraAspect c).
Proof.
  unfold after.
  destruct (currentWorld c) as [w |] eqn:E.
  - destruct (renderer w) as [r |] eqn:Er.
    + rewrite (setOrthoCameraAspect_rendered c w r E Er). cbn [snd].
      erewrite setOrthoCameraAspect_rendered; [| exact E | exact Er]. reflexivity.
    + rewrite (setOrthoCameraAspect_no_renderer c w E Er). cbn [snd].
      rewrite (setOrthoCameraAspect_no_renderer c w E Er). reflexivity.
  - rewrite (setOrthoCameraAspect_no_world c E). cbn [snd].
    rewrite (setOrthoCameraAspect_no_world c E). reflexivity.
Qed.



End Frusta.

(** ** The handlers of the viewer example *)

Lemma onkeydown_unhandled {T} {api : ViewerApi T} (code : string) (v : Viewer T) :
  code ∉ handled_codes -> onkeydown code v = v.
Proof.
  intros Hout. unfold handled_codes in Hout. rewrite !not_elem_of_cons in Hout.
  destruct Hout as (HC & HD & HH & HE & HP & HDel & _).
  unfold onkeydown.
  apply String.eqb_neq in HC, HD, HH, HE, HP, HDel.
  rewrite HC, HD, HH, HE, HP, HDel. reflexivity.
Qed.

(** X19.  [case "KeyP":] has no [break]: pressing P prints the state of the
    tools and then does everything that pressing Delete does, so with the
    clipper enabled at that point a clipping plane is deleted. *)
Theorem onkeydown_KeyP_falls_through {T} {api : ViewerApi T} (v : Viewer T) :
  onkeydown "KeyP" v = onkeydown "Delete" (invoke ToolsPrintToolsState v) /\
  (clipper_enabled (perform ToolsPrintToolsState (fst v)) = true ->
   In ClipperDeletePlane (snd (onkeydown "KeyP" v))).
Proof.
  split; [reflexivity |]. intros Hclip.
  change (onkeydown "KeyP" v) with (case_Delete (invoke ToolsPrintToolsState v)).
  unfold case_Delete. cbn [invoke fst snd]. rewrite Hclip. cbn [invoke fst snd].
  destruct (dimensions_enabled _); cbn [invoke fst snd];
    rewrite ?in_app_iff; cbn [In]; auto 10.
Qed.

Lemma onkeydown_KeyP_falls_through_witness :
  snd (onkeydown (api := flag_tools) "KeyP" ((true, false), []))
  = [ToolsPrintToolsState; ClipperDeletePlane] /\
  In ClipperDeletePlane (snd (onkeydown (api := flag_tools) "KeyP" ((true, false), []))).
Proof.
  split; [reflexivity |].
  apply (onkeydown_KeyP_falls_through (api := flag_tools) ((true, false), [])).
  reflexivity.
Defined.

(** X20.  A key press whose code is none of KeyC, KeyD, KeyH, Escape, KeyP
    and Delete calls nothing and changes nothing; whatever the code, a key
    press makes at most three calls and none of them creates a plane or a
    dimension. *)
Theorem onkeydown_calls {T} {api : ViewerApi T} (code : string) (v : Viewer T) :
  (code ∉ handled_codes -> onkeydown code v = v) /\
  exists l : list ViewerCall,
    snd (onkeydown code v) = (snd v ++ l)%list /\
    length l <= 3 /\ forallb (fun k => negb (is_creation k)) l = true.
Proof.
  split; [apply onkeydown_unhandled |].
  unfold onkeydown, case_Delete.
  repeat match goal with
         | |- context [if ?t then _ else _] =>
             lazymatch t with
             | context [if _ then _ else _] => fail
             | _ => destruct t; cbn [invoke fst snd]
             end
         end;
    rewrite <- ?app_assoc;
    (eexists; split; [reflexivity | split; [cbn; lia | reflexivity]])
    || (exists []; split; [symmetry; apply app_nil_r | split; [cbn; lia | reflexivity]]).
Qed.

Lemma onkeydown_calls_witness :
  onkeydown (api := flag_tools) "KeyQ" ((true, true), [ClipperCreatePlane])
  = ((true, true), [ClipperCreatePlane]).
Proof.
  destruct (onkeydown_calls (api := flag_tools) "KeyQ" ((true, true), [ClipperCreatePlane]))
    as [Hno _].
  apply Hno. unfold handled_codes. rewrite !not_elem_of_cons.
  repeat split; try discriminate. apply not_elem_of_nil.
Defined.

(** X21.  A double click makes at most one call and never deletes: with the
    clipper enabled it creates a plane, even when the dimensions tool is
    enabled too; with only the dimensions tool enabled it creates a
    dimension; with neither it does nothing. *)
Theorem ondblclick_calls {T} {api : ViewerApi T} (v : Viewer T) :
  (clipper_enabled (fst v) = true ->
   ondblclick v = invoke ClipperCreatePlane v) /\
  (clipper_enabled (fst v) = false -> dimensions_enabled (fst v) = true ->
   ondblclick v = invoke DimensionsCreate v) /\
  (clipper_enabled (fst v) = false -> dimensions_enabled (fst v) = false ->
   ondblclick v = v) /\
  exists l : list ViewerCall,
    snd (ondblclick v) = (snd v ++ l)%list /\
    length l <= 1 /\ forallb (fun k => negb (is_deletion k)) l = true.
Proof.
  unfold ondblclick.
  destruct (clipper_enabled (fst v)); [| destruct (dimensions_enabled (fst v))];
    (split; [intros; (reflexivity || discriminate) |]);
    (split; [intros; (reflexivity || discriminate) |]);
    (split; [intros; (reflexivity || discriminate) |]).
  - exists [ClipperCreatePlane]. repeat split. cbn. lia.
  - exists [DimensionsCreate]. repeat split. cbn. lia.
  - exists []. split; [symmetry; apply app_nil_r | split; [cbn; lia | reflexivity]].
Qed.

Lemma ondblclick_calls_witness :
  snd (ondblclick (api := flag_tools) ((true, true), [])) = [ClipperCreatePlane] /\
  snd (ondblclick (api := flag_tools) ((false, true), [])) = [DimensionsCreate] /\
  ondblclick (api := flag_tools) ((false, false), []) = ((false, false), []).
Proof.
  destruct (ondblclick_calls (api := flag_tools) ((true, true), [])) as (Hclip & _).
  destruct (ondblclick_calls (api := flag_tools) ((false, true), [])) as (_ & Hdim & _).
  destruct (ondblclick_calls (api := flag_tools) ((false, false), [])) as (_ & _ & Hnone & _).
  split; [rewrite Hclip by reflexivity; reflexivity |].
  split; [rewrite Hdim by reflexivity; reflexivity |].
  apply Hnone; reflexivity.
Defined.

(** ** Importer settings *)

Lemma last_cons_default {A} (a : A) (l : list A) (d d' : A) :
  List.last (a :: l) d = List.last (a :: l) d'.
Proof.
  revert a. induction l as [| b l IH]; intros a; [reflexivity |].
  change (List.last (a :: b :: l) d) with (List.last (b :: l) d).
  change (List.last (a :: b :: l) d') with (List.last (b :: l) d').
  apply IH.
Qed.

Lemma Settings_setWasmPath_fold (paths : list string) (s : Settings.t) :
  let s' := fold_left (fun s path => Settings.setWasmPath path s) paths s in
  Settings.wasmPath s' = List.last paths (Settings.wasmPath s) /\
  Settings.instancedCategories s' = Settings.instancedCategories s /\
  Settings.optionalCategories s' = Settings.optionalCategories s /\
  Settings.webIfc s' = Settings.webIfc s.
Proof.
  revert s. induction paths as [| path paths IH]; intros s; [cbn; auto |].
  cbn [fold_left]. destruct (IH (Settings.setWasmPath path s)) as (Hw & Hi & Ho & Hl).
  cbn zeta. rewrite Hw, Hi, Ho, Hl. cbn [Settings.setWasmPath Settings.wasmPath
    Settings.instancedCategories Settings.optionalCategories Settings.webIfc].
  repeat split. destruct paths as [| path' paths]; [reflexivity |].
  change (List.last (path :: path' :: paths) (Settings.wasmPath s))
    with (List.last (path' :: paths) (Settings.wasmPath s)).
  apply last_cons_default.
Qed.

(** X22.  Fresh settings instance exactly the categories furnishing
    element, window and door, list spaces as the one optional category, have
    an empty wasm path and ask for coordinates moved to the origin without
    fast booleans; any sequence of [setWasmPath] calls leaves all of that
    but the path, which is the last one given. *)
Theorem Settings_after_setWasmPath (W : WebIfc) (paths : list string) :
  let s := fold_left (fun s path => Settings.setWasmPath path s) paths
             (Settings.constructor W) in
  Settings.wasmPath s = List.last paths "" /\
  (forall category : N,
      category ∈ Settings.instancedCategories s
      <-> category = IFCFURNISHINGELEMENT W \/ category = IFCWINDOW W
          \/ category = IFCDOOR W) /\
  Settings.optionalCategories s = [IFCSPACE W] /\
  Settings.webIfc s = {| COORDINATE_TO_ORIGIN := true; USE_FAST_BOOLS := false |}.
Proof.
  destruct (Settings_setWasmPath_fold paths (Settings.constructor W)) as (Hw & Hi & Ho & Hl).
  cbn zeta. rewrite Hw, Hi, Ho, Hl.
  split; [reflexivity |]. split; [| split; reflexivity].
  intros category. cbn [Settings.constructor Settings.instancedCategories].
  rewrite !elem_of_union, !elem_of_singleton, elem_of_empty. tauto.
Qed.
